(** * Reveal slide index of the Quarto editor extension

    A shallow embedding of [revealSlideIndex], [revealEditorLocation] and
    [slideLevelFromYaml] (the reveal preview's cursor-to-slide mapping), with
    the properties of the slide-level resolver and of the structural locator
    stated over it.

    Numbers are the integers: rows, heading levels, a slide level and the
    slide index are integral wherever the code computes them, and a
    non-integral slide level coming out of the front matter is outside the
    model. *)

From Stdlib Require Import ZArith List String Bool Lia Sorted.
Import ListNotations.

Open Scope string_scope.
Open Scope list_scope.
Open Scope Z_scope.

Set Warnings "-register-all".

(** ** Values of the host language *)

Module Js.

(** The values a decoded front matter block is made of. An object is an
    association list from keys to values; the first binding of a key is the
    one a property read sees. *)
Inductive JsValue : Type :=
| JsUndefined
| JsNull
| JsBool (b : bool)
| JsNumber (n : Z)
| JsString (s : string)
| JsArray (elements : list JsValue)
| JsObject (fields : list (string * JsValue)).

(** ToBoolean: what [||], [if] and [?:] test. *)
Definition truthy (v : JsValue) : bool :=
  match v with
  | JsUndefined | JsNull => false
  | JsBool b => b
  | JsNumber n => negb (n =? 0)
  | JsString s => negb (String.eqb s "")
  | JsArray _ | JsObject _ => true
  end.

(** [a || b] with both operands already evaluated. *)
Definition or (a b : JsValue) : JsValue := if truthy a then a else b.

(** How an evaluation ends: with a value, or with a thrown one. *)
Inductive Completion (A : Type) : Type :=
| Normal (a : A)
| Throw (error : JsValue).
Arguments Normal {A} a.
Arguments Throw {A} error.

Definition bind {A B} (c : Completion A) (k : A -> Completion B) : Completion B :=
  match c with
  | Normal a => k a
  | Throw e => Throw e
  end.

(** [try { body } catch (error) { handler }] *)
Definition try_catch {A} (body : Completion A) (handler : JsValue -> A) : A :=
  match body with
  | Normal a => a
  | Throw e => handler e
  end.

Definition TypeError : JsValue := JsString "TypeError".

Fixpoint lookup (key : string) (fields : list (string * JsValue)) : JsValue :=
  match fields with
  | [] => JsUndefined
  | (k, v) :: rest => if String.eqb k key then v else lookup key rest
  end.

(** [v[key]] for a key that is no built-in property of strings, numbers,
    booleans or arrays (the engine reads "slide-level", "format" and
    "revealjs" only): reading from undefined or null throws, an object
    gives its binding, anything else gives undefined. *)
Definition get (v : JsValue) (key : string) : Completion JsValue :=
  match v with
  | JsUndefined | JsNull => Throw TypeError
  | JsObject fields => Normal (lookup key fields)
  | JsBool _ | JsNumber _ | JsString _ | JsArray _ => Normal JsUndefined
  end.

Definition nullish (v : JsValue) : bool :=
  match v with
  | JsUndefined | JsNull => true
  | _ => false
  end.

(** [v?.[key]]: undefined when [v] is undefined or null. An optional chain
    that is cut short evaluates to undefined as a whole, which is what the
    next link of the chain makes of an undefined operand. *)
Definition get_opt (v : JsValue) (key : string) : Completion JsValue :=
  if nullish v then Normal JsUndefined else get v key.

End Js.
Import Js.

Notation "x <- c ;; k" := (Js.bind c (fun x => k))
  (at level 61, c at next level, right associativity).

(** ** Tokens of the markdown engine *)

(** What the engine reads of a token: [token.type], [token.map] (the pair of
    the first line and the line after the last, or null) and [token.markup]. *)
Record Token : Type := mkToken {
  token_type : string;
  token_map : option (Z * Z);
  token_markup : string
}.

(** ** Items of an editor location *)

Inductive RevealEditorLocationItemType : Type :=
| kTitle
| kHeading
| kHr
| kCursor.

Record RevealEditorLocationItem : Type := mkItem {
  type : RevealEditorLocationItemType;
  level : Z;
  row : Z
}.

Record RevealEditorLocation : Type := mkLocation {
  items : list RevealEditorLocationItem;
  slideLevel : JsValue
}.

Definition simpleItem (t : RevealEditorLocationItemType) (r : Z) : RevealEditorLocationItem :=
  {| type := t; level := 0; row := r |}.

Definition titleItem (r : Z) : RevealEditorLocationItem := simpleItem kTitle r.
Definition cursorItem (r : Z) : RevealEditorLocationItem := simpleItem kCursor r.
Definition hrItem (r : Z) : RevealEditorLocationItem := simpleItem kHr r.

Definition headingItem (r : Z) (lvl : Z) : RevealEditorLocationItem :=
  {| type := kHeading; level := lvl; row := r |}.

Definition MAX_SAFE_INTEGER : Z := 9007199254740991.

(** The variables of [revealEditorLocation]'s scan. *)
Record Scan : Type := mkScan {
  scan_items : list RevealEditorLocationItem;
  explicitSlideLevel : JsValue;
  autoSlideLevel : Z;
  pendingAutoSlideLevel : Z;
  foundCursor : bool
}.

Definition scan_start : Scan :=
  {| scan_items := [];
     explicitSlideLevel := JsNull;
     autoSlideLevel := MAX_SAFE_INTEGER;
     pendingAutoSlideLevel := 0;
     foundCursor := false |}.

Definition push (i : RevealEditorLocationItem) (s : Scan) : Scan :=
  {| scan_items := scan_items s ++ [i];
     explicitSlideLevel := explicitSlideLevel s;
     autoSlideLevel := autoSlideLevel s;
     pendingAutoSlideLevel := pendingAutoSlideLevel s;
     foundCursor := foundCursor s |}.

Definition set_explicitSlideLevel (v : JsValue) (s : Scan) : Scan :=
  {| scan_items := scan_items s;
     explicitSlideLevel := v;
     autoSlideLevel := autoSlideLevel s;
     pendingAutoSlideLevel := pendingAutoSlideLevel s;
     foundCursor := foundCursor s |}.

Definition set_autoSlideLevel (n : Z) (s : Scan) : Scan :=
  {| scan_items := scan_items s;
     explicitSlideLevel := explicitSlideLevel s;
     autoSlideLevel := n;
     pendingAutoSlideLevel := pendingAutoSlideLevel s;
     foundCursor := foundCursor s |}.

Definition set_pendingAutoSlideLevel (n : Z) (s : Scan) : Scan :=
  {| scan_items := scan_items s;
     explicitSlideLevel := explicitSlideLevel s;
     autoSlideLevel := autoSlideLevel s;
     pendingAutoSlideLevel := n;
     foundCursor := foundCursor s |}.

Definition set_foundCursor (b : bool) (s : Scan) : Scan :=
  {| scan_items := scan_items s;
     explicitSlideLevel := explicitSlideLevel s;
     autoSlideLevel := autoSlideLevel s;
     pendingAutoSlideLevel := pendingAutoSlideLevel s;
     foundCursor := b |}.

(** ** Sample collaborators and token streams *)

(** A decoder that decodes every block to [meta]. *)
Definition decoded (meta : JsValue) : string -> Completion JsValue :=
  fun _ => Normal meta.

(** A decoder that rejects every block. *)
Definition undecodable : string -> Completion JsValue :=
  fun _ => Throw (JsString "YAMLException").

(** The level of an ATX heading: the length of its run of hashes. *)
Definition marker_length (markup : string) : Z := Z.of_nat (String.length markup).

Definition not_a_number (v : JsValue) : option Z := None.

(** A one-line token. *)
Definition token_at (ty : string) (r : Z) (markup : string) : Token :=
  {| token_type := ty; token_map := Some (r, r + 1); token_markup := markup |}.

(** Front matter with no slide level. *)
Definition plain_front_matter : JsValue := JsObject [("title", JsString "Talk")].


(** Front matter with [slide-level: n]. *)
Definition top_slide_level (n : Z) : JsValue := JsObject [("slide-level", JsNumber n)].

(** Front matter, a level 1 heading, a level 2 heading, a horizontal rule. *)
Definition scenario_tokens : list Token :=
  [ token_at "front_matter" 0 "---";
    token_at "heading_open" 2 "#";
    token_at "heading_open" 5 "##";
    token_at "hr" 9 "---" ].

(** A level 2 heading with its text, then a level 1 heading. *)
Definition accepted_2_pending_1 : list Token :=
  [ token_at "heading_open" 0 "##";
    token_at "inline" 0 "";
    token_at "heading_open" 3 "#" ].

(** Front matter, then a level 1 heading with its text. *)
Definition titled_section : list Token :=
  [ token_at "front_matter" 0 "---";
    token_at "heading_open" 4 "#";
    token_at "inline" 4 "" ].


(** ** The preview's message listener *)

Module Webview.

(** What the listener calls. A call is recorded where the listener makes
    it; what the callee does with it is the callee's. *)
Inductive Call : Type :=
| updateAddressBar (href : JsValue)
| iframe_focus
| postMessage (message : JsValue)
| toggleFocusLockIndicatorEnabled (enabled : JsValue)
| navigateTo_input (theme : JsValue).

(** [v === s] for a string literal [s]. *)
Definition is_literal (v : JsValue) (s : string) : bool :=
  match v with
  | JsString x => String.eqb x s
  | _ => false
  end.

(** [v[key]] for a computed key: reading from undefined or null throws, an
    array read at an integer gives the element there, or undefined outside
    the array; every other read is left to [other]. *)
Definition element (other : JsValue -> JsValue -> JsValue) (v key : JsValue)
  : Completion JsValue :=
  match v with
  | JsUndefined | JsNull => Throw TypeError
  | JsArray elements =>
      match key with
      | JsNumber n =>
          Normal (if (0 <=? n) && (n <? Z.of_nat (List.length elements))
                  then nth (Z.to_nat n) elements JsUndefined
                  else JsUndefined)
      | _ => Normal (other v key)
      end
  | _ => Normal (other v key)
  end.

(** The [switch]'s discriminant, [e.data.type || e.data.message]. *)
Definition kind (data : JsValue) : Completion JsValue :=
  ty <- get data "type" ;;
  if truthy ty then Normal ty else get data "message".

(** The listener of the window's "message" event, for [e.data = data]: the
    value it leaves in [slideIndex] and the calls it makes, in order, each
    call returning ([postMessage m] is [e.source.postMessage(m, e.origin)]
    and [navigateTo_input theme] is [navigateTo(input.value, theme)]). It
    throws where a read of its own throws, which in every case is before its
    calls. *)
Definition on_message (other : JsValue -> JsValue -> JsValue)
    (slideIndex data : JsValue) : Completion (JsValue * list Call) :=
  k <- kind data ;;
  if is_literal k "navigate" then
    href <- get data "href" ;;
    Normal (slideIndex, [updateAddressBar href])
  else if is_literal k "focus" then
    Normal (slideIndex, [iframe_focus])
  else if is_literal k "setSlideIndex" then
    index <- get data "index" ;;
    Normal (Js.or index (JsNumber 0), [])
  else if is_literal k "reveal-init" then
    d <- get data "data" ;;
    slides <- get d "slides" ;;
    slide <- element other slides slideIndex ;;
    Normal (slideIndex,
            (if truthy slide
             then [postMessage
                     (JsObject [("message", JsString "reveal-slide"); ("data", slide)])]
             else [])
            ++ [postMessage (JsObject [("message", JsString "reveal-ready")])])
  else if is_literal k "reveal-hashchange" then
    d <- get data "data" ;;
    href <- get d "href" ;;
    Normal (slideIndex, [updateAddressBar href])
  else if is_literal k "didChangeFocusLockIndicatorEnabled" then
    enabled <- get data "enabled" ;;
    Normal (slideIndex, [toggleFocusLockIndicatorEnabled enabled])
  else if is_literal k "didChangeActiveColorTheme" then
    theme <- get data "theme" ;;
    Normal (slideIndex, [navigateTo_input theme])
  else Normal (slideIndex, []).

(** The listener over the messages of a session, one event after the other:
    a listener that throws leaves [slideIndex] as it was and has made no
    call. *)
Fixpoint listen (other : JsValue -> JsValue -> JsValue)
    (slideIndex : JsValue) (messages : list JsValue) : JsValue * list Call :=
  match messages with
  | [] => (slideIndex, [])
  | data :: rest =>
      match on_message other slideIndex data with
      | Normal (slideIndex', calls) =>
          let (final, more) := listen other slideIndex' rest in
          (final, calls ++ more)
      | Throw _ => listen other slideIndex rest
      end
  end.

(** The script's [let slideIndex = 0]. *)
Definition slideIndex_start : JsValue := JsNumber 0.

(** The two messages posted on reveal-init. *)
Definition reveal_slide (slide : JsValue) : Call :=
  postMessage (JsObject [("message", JsString "reveal-slide"); ("data", slide)]).

Definition reveal_ready : Call :=
  postMessage (JsObject [("message", JsString "reveal-ready")]).

(** A call that, if it posts a message, posts reveal-ready or a reveal-slide
    with a truthy slide. *)
Definition posts_slide_or_ready (call : Call) : Prop :=
  match call with
  | postMessage m =>
      m = JsObject [("message", JsString "reveal-ready")]
      \/ exists slide,
           truthy slide = true
           /\ m = JsObject [("message", JsString "reveal-slide"); ("data", slide)]
  | _ => True
  end.

End Webview.

(** A message that sets the slide index, and the deck's reveal-init. *)
Definition setSlideIndex_message (index : JsValue) : JsValue :=
  JsObject [("type", JsString "setSlideIndex"); ("index", index)].

Definition reveal_init_message (slides : list JsValue) : JsValue :=
  JsObject [("message", JsString "reveal-init");
            ("data", JsObject [("slides", JsArray slides)])].

Definition no_other_read (v key : JsValue) : JsValue := JsUndefined.

(** A token without a source map, as the closing tokens are. *)
Definition closing_token (ty : string) : Token :=
  {| token_type := ty; token_map := None; token_markup := "" |}.

(** A stream as the markdown parser emits it: front matter, a level 1
    heading with one paragraph, a level 2 heading, a horizontal rule and
    another level 2 heading. *)
Definition parsed_stream : list Token :=
  [ token_at "front_matter" 0 "---";
    token_at "heading_open" 3 "#";
    token_at "inline" 3 "";
    closing_token "heading_close";
    token_at "paragraph_open" 5 "";
    token_at "inline" 5 "";
    closing_token "paragraph_close";
    token_at "heading_open" 8 "##";
    token_at "inline" 8 "";
    closing_token "heading_close";
    token_at "hr" 10 "---";
    token_at "heading_open" 12 "##";
    token_at "inline" 12 "";
    closing_token "heading_close" ].

(** Front matter, then two headings below level 1 with their text. *)
Definition deep_sections : list Token :=
  [ token_at "front_matter" 0 "---";
    token_at "heading_open" 2 "##";
    token_at "inline" 2 "";
    token_at "heading_open" 6 "###";
    token_at "inline" 6 "" ].

(** A deck of two slides. *)
Definition two_slides : list JsValue :=
  [ JsObject [("h", JsNumber 0); ("v", JsNumber 0)];
    JsObject [("h", JsNumber 1); ("v", JsNumber 0)] ].

Section Reveal.

(** The front matter decoder of core/yaml: a decoded value, or a throw. *)
Variable parseFrontMatterStr : string -> Completion JsValue.

(** The heading level of markdown/toc, read off a heading's markup. *)
Variable getHeaderLevel : string -> Z.

(** ToNumber on a string, an array or an object, which the language
    runtime defines and the engine never spells out; [None] is NaN. *)
Variable ToNumberOther : JsValue -> option Z.

Definition ToNumber (v : JsValue) : option Z :=
  match v with
  | JsUndefined => None
  | JsNull => Some 0
  | JsBool b => Some (if b then 1 else 0)
  | JsNumber n => Some n
  | JsString _ | JsArray _ | JsObject _ => ToNumberOther v
  end.

(** [n <= v] for a number [n]: false as soon as [v] converts to NaN. *)
Definition number_le (n : Z) (v : JsValue) : bool :=
  match ToNumber v with
  | Some m => n <=? m
  | None => false
  end.

(** The body of [slideLevelFromYaml]'s [try]. *)
Definition slideLevelFromYaml_try (str : string) : Completion JsValue :=
  meta <- parseFrontMatterStr str ;;
  if truthy meta then
    let kSlideLevel := "slide-level" in
    top <- get meta kSlideLevel ;;
    if truthy top then Normal top
    else
      format <- get meta "format" ;;
      revealjs <- get_opt format "revealjs" ;;
      nested <- get_opt revealjs kSlideLevel ;;
      Normal (Js.or nested JsNull)
  else Normal JsNull.

Definition slideLevelFromYaml (str : string) : JsValue :=
  try_catch (slideLevelFromYaml_try str) (fun _ => JsNull).

(** One turn of the loop over the tokens. *)
Definition scan_token (cursorLine : Z) (s : Scan) (token : Token) : Scan :=
  match token_map token with
  | None => s
  | Some (row, _) =>
      let s :=
        if negb (foundCursor s) && (cursorLine <? row)
        then push (cursorItem cursorLine) (set_foundCursor true s)
        else s in
      if String.eqb (token_type token) "front_matter" then
        push (titleItem 0)
          (set_explicitSlideLevel (slideLevelFromYaml (token_markup token)) s)
      else if String.eqb (token_type token) "hr" then
        set_pendingAutoSlideLevel 0 (push (hrItem row) s)
      else if String.eqb (token_type token) "heading_open" then
        let level := getHeaderLevel (token_markup token) in
        let s := push (headingItem row level) s in
        if level <? autoSlideLevel s
        then set_pendingAutoSlideLevel level s
        else set_pendingAutoSlideLevel 0 s
      else
        if 0 <? pendingAutoSlideLevel s
        then set_pendingAutoSlideLevel 0 (set_autoSlideLevel (pendingAutoSlideLevel s) s)
        else s
  end.

Definition scan_tokens (cursorLine : Z) (tokens : list Token) (s : Scan) : Scan :=
  fold_left (scan_token cursorLine) tokens s.

(** What follows the loop: the cursor at the end, the last pending level,
    the level that was never found, and the result. *)
Definition scan_finish (lineCount : Z) (s : Scan) : RevealEditorLocation :=
  let s := if negb (foundCursor s) then push (cursorItem (lineCount - 1)) s else s in
  let s := if 0 <? pendingAutoSlideLevel s
           then set_autoSlideLevel (pendingAutoSlideLevel s) s else s in
  let s := if autoSlideLevel s =? MAX_SAFE_INTEGER
           then set_autoSlideLevel 0 s else s in
  {| items := scan_items s;
     slideLevel := Js.or (explicitSlideLevel s) (JsNumber (autoSlideLevel s)) |}.

(** [cursorLine] is [cursorPos.line], [lineCount] is [doc.lineCount] and
    [tokens] is what [engine.parse(doc)] resolves to. *)
Definition revealEditorLocation (cursorLine lineCount : Z) (tokens : list Token)
  : RevealEditorLocation :=
  scan_finish lineCount (scan_tokens cursorLine tokens scan_start).

(** The loop of [revealSlideIndex]: [Some] is the [return] inside the
    loop, [None] is the loop running off the end of the items. *)
Fixpoint slideIndexAtCursor (slideLevel : JsValue)
    (items : list RevealEditorLocationItem) (slideIndex : Z) : option Z :=
  match items with
  | [] => None
  | item :: rest =>
      match type item with
      | kCursor => Some (Z.max slideIndex 0)
      | kTitle | kHr => slideIndexAtCursor slideLevel rest (slideIndex + 1)
      | kHeading =>
          if number_le (level item) slideLevel
          then slideIndexAtCursor slideLevel rest (slideIndex + 1)
          else slideIndexAtCursor slideLevel rest slideIndex
      end
  end.

Definition revealSlideIndex (cursorLine lineCount : Z) (tokens : list Token) : Z :=
  let location := revealEditorLocation cursorLine lineCount tokens in
  match slideIndexAtCursor (slideLevel location) (items location) (-1) with
  | Some slideIndex => slideIndex
  | None => 0
  end.

(** ** Definitions for the proofs *)

(** The test that places the cursor item before a token: the token is
    line-mapped and the cursor line is strictly before its first line. *)
Definition starts_after (cursorLine : Z) (token : Token) : bool :=
  match token_map token with
  | Some (row, _) => cursorLine <? row
  | None => false
  end.

(** The items a token adds to the sequence, the cursor item apart. *)
Definition token_items (token : Token) : list RevealEditorLocationItem :=
  match token_map token with
  | None => []
  | Some (row, _) =>
      if String.eqb (token_type token) "front_matter" then [titleItem 0]
      else if String.eqb (token_type token) "hr" then [hrItem row]
      else if String.eqb (token_type token) "heading_open"
      then [headingItem row (getHeaderLevel (token_markup token))]
      else []
  end.

(** The items the loop adds for [tokens] when it starts with
    [foundCursor = found]. *)
Fixpoint items_from (cursorLine : Z) (found : bool) (tokens : list Token)
  : list RevealEditorLocationItem :=
  match tokens with
  | [] => []
  | token :: rest =>
      if negb found && starts_after cursorLine token
      then cursorItem cursorLine :: token_items token ++ items_from cursorLine true rest
      else token_items token ++ items_from cursorLine found rest
  end.

(** The items at which [revealSlideIndex] increments [slideIndex]. *)
Definition counts (slideLevel : JsValue) (item : RevealEditorLocationItem) : bool :=
  match type item with
  | kTitle | kHr => true
  | kHeading => number_le (level item) slideLevel
  | kCursor => false
  end.

(** How many items of [l] increment [slideIndex]. *)
Definition boundaries (slideLevel : JsValue) (l : list RevealEditorLocationItem) : Z :=
  Z.of_nat (List.length (filter (counts slideLevel) l)).

(** [slideIndex] at the cursor item, read off the tokens: the increments of
    the tokens that come before the first one starting after the cursor. *)
Fixpoint index_at (slideLevel : JsValue) (cursorLine : Z) (tokens : list Token)
    (slideIndex : Z) : Z :=
  match tokens with
  | [] => slideIndex
  | token :: rest =>
      if starts_after cursorLine token then slideIndex
      else index_at slideLevel cursorLine rest
             (slideIndex + boundaries slideLevel (token_items token))
  end.

Definition is_cursor (item : RevealEditorLocationItem) : bool :=
  match type item with kCursor => true | _ => false end.

(** Two scans agree on the variables the slide level is made of. *)
Definition same_levels (s1 s2 : Scan) : Prop :=
  explicitSlideLevel s1 = explicitSlideLevel s2
  /\ autoSlideLevel s1 = autoSlideLevel s2
  /\ pendingAutoSlideLevel s1 = pendingAutoSlideLevel s2.

(** The tokens that take the loop's front matter branch. *)
Definition is_front_matter (token : Token) : bool :=
  match token_map token with
  | Some _ => String.eqb (token_type token) "front_matter"
  | None => false
  end.

(** The tokens that take the loop's heading branch. *)
Definition is_heading (token : Token) : bool :=
  match token_map token with
  | Some _ => String.eqb (token_type token) "heading_open"
  | None => false
  end.

(** The level the scan has inferred once the loop is over. *)
Definition inferred (s : Scan) : Z :=
  let auto := if 0 <? pendingAutoSlideLevel s
              then pendingAutoSlideLevel s else autoSlideLevel s in
  if auto =? MAX_SAFE_INTEGER then 0 else auto.

Definition no_cursor (l : list RevealEditorLocationItem) : bool :=
  forallb (fun i => negb (is_cursor i)) l.

(** The tokens the loop looks at: those with a source map. *)
Definition is_mapped (token : Token) : bool :=
  match token_map token with
  | Some _ => true
  | None => false
  end.

(** The tokens that take the loop's horizontal rule branch. *)
Definition is_hr (token : Token) : bool :=
  match token_map token with
  | Some _ =>
      negb (String.eqb (token_type token) "front_matter")
      && String.eqb (token_type token) "hr"
  | None => false
  end.

(** The tokens that take the loop's last branch: line-mapped, and neither
    front matter, horizontal rule nor heading. *)
Definition is_other (token : Token) : bool :=
  match token_map token with
  | Some _ =>
      negb (String.eqb (token_type token) "front_matter")
      && negb (String.eqb (token_type token) "hr")
      && negb (String.eqb (token_type token) "heading_open")
  | None => false
  end.

(** The first lines of the line-mapped tokens, in stream order. *)
Fixpoint rows (tokens : list Token) : list Z :=
  match tokens with
  | [] => []
  | token :: rest =>
      match token_map token with
      | Some (r, _) => r :: rows rest
      | None => rows rest
      end
  end.

(** The stream is in source order: first lines never decrease. *)
Definition in_source_order (tokens : list Token) : Prop :=
  StronglySorted Z.le (rows tokens).

(** The tokens that start at or before the cursor line (the tokens without
    a source map among them). *)
Definition up_to (cursorLine : Z) (tokens : list Token) : list Token :=
  filter (fun token => negb (starts_after cursorLine token)) tokens.

(** The levels of the line-mapped headings, in stream order. *)
Definition heading_levels (tokens : list Token) : list Z :=
  map (fun token => getHeaderLevel (token_markup token)) (filter is_heading tokens).

(** The shallowest of [levels], from [MAX_SAFE_INTEGER] down. *)
Definition shallowest (levels : list Z) : Z :=
  fold_left Z.min levels MAX_SAFE_INTEGER.

(** Every line-mapped heading is directly followed by a token of the last
    branch (its text), or ends the stream. *)
Fixpoint headings_have_text (tokens : list Token) : bool :=
  match tokens with
  | [] => true
  | token :: rest =>
      if is_heading token then
        match rest with
        | [] => true
        | next :: _ => is_other next && headings_have_text rest
        end
      else headings_have_text rest
  end.

(** The level the scan would accept were the stream to end here. *)
Definition candidate (s : Scan) : Z :=
  if 0 <? pendingAutoSlideLevel s then pendingAutoSlideLevel s else autoSlideLevel s.

(** [n] is the level of a line-mapped heading of [tokens]. *)
Definition heading_level_of (tokens : list Token) (n : Z) : Prop :=
  exists token, In token tokens /\ is_heading token = true
                /\ getHeaderLevel (token_markup token) = n.

(** [v] is what the front matter lookup gives for a line-mapped front
    matter token of [tokens]. *)
Definition front_matter_level_of (tokens : list Token) (v : JsValue) : Prop :=
  exists token, In token tokens /\ is_front_matter token = true
                /\ slideLevelFromYaml (token_markup token) = v.

(** Where the scan's levels come from: the explicit level is null or given
    by a front matter token seen so far, the accepted level is its initial
    value or the positive level of a heading seen so far, and the pending
    level is 0 or the level of a heading seen so far. *)
Definition provenance (seen : list Token) (s : Scan) : Prop :=
  (explicitSlideLevel s = JsNull
   \/ front_matter_level_of seen (explicitSlideLevel s))
  /\ (autoSlideLevel s = MAX_SAFE_INTEGER
      \/ (0 < autoSlideLevel s /\ heading_level_of seen (autoSlideLevel s)))
  /\ (pendingAutoSlideLevel s = 0
      \/ heading_level_of seen (pendingAutoSlideLevel s)).

(** ** Lemmas *)

Ltac token_kind token :=
  destruct (String.eqb (token_type token) "front_matter") eqn:?;
  [ | destruct (String.eqb (token_type token) "hr") eqn:?;
      [ | destruct (String.eqb (token_type token) "heading_open") eqn:? ] ].

Lemma scan_token_items c s token :
  scan_items (scan_token c s token)
  = scan_items s ++ items_from c (foundCursor s) [token].
Proof.
  destruct s as [its ex au pe fo].
  unfold scan_token, starts_after; cbn. unfold starts_after, token_items.
  destruct (token_map token) as [[r e]|]; cbn.
  2:{ destruct fo; cbn; now rewrite app_nil_r. }
  destruct fo; cbn; [ | destruct (c <? r); cbn ];
    token_kind token; cbn;
    repeat match goal with |- context [if ?b then _ else _] => destruct b; cbn end;
    rewrite <- ?app_assoc, ?app_nil_r; reflexivity.
Qed.

Lemma scan_token_found c s token :
  foundCursor (scan_token c s token) = foundCursor s || starts_after c token.
Proof.
  destruct s as [its ex au pe fo].
  unfold scan_token, starts_after.
  destruct (token_map token) as [[r e]|]; cbn; [ | now rewrite orb_false_r ].
  destruct fo; cbn; [ | destruct (c <? r); cbn ];
    token_kind token; cbn;
    repeat match goal with |- context [if ?b then _ else _] => destruct b; cbn end;
    reflexivity.
Qed.

Lemma items_from_cons c found token rest :
  items_from c found (token :: rest)
  = items_from c found [token] ++ items_from c (found || starts_after c token) rest.
Proof.
  cbn. destruct found; cbn.
  - now rewrite app_nil_r.
  - destruct (starts_after c token); cbn; now rewrite app_nil_r.
Qed.

Lemma scan_tokens_items c tokens : forall s,
  scan_items (scan_tokens c tokens s)
  = scan_items s ++ items_from c (foundCursor s) tokens.
Proof.
  induction tokens as [|token rest IH]; intros s.
  - cbn. now rewrite app_nil_r.
  - unfold scan_tokens in *. cbn [fold_left]. rewrite IH.
    rewrite scan_token_items, scan_token_found, <- app_assoc.
    now rewrite <- items_from_cons.
Qed.

Lemma scan_tokens_found c tokens : forall s,
  foundCursor (scan_tokens c tokens s)
  = foundCursor s || existsb (starts_after c) tokens.
Proof.
  induction tokens as [|token rest IH]; intros s.
  - cbn. now rewrite orb_false_r.
  - unfold scan_tokens in *. cbn [fold_left existsb]. rewrite IH, scan_token_found.
    now rewrite orb_assoc.
Qed.

(** The items of the location: the scanned ones, and the cursor at the last
    line when the scan placed none. *)
Lemma scan_finish_items lineCount s :
  items (scan_finish lineCount s)
  = scan_items s ++ (if foundCursor s then [] else [cursorItem (lineCount - 1)]).
Proof.
  unfold scan_finish. destruct (foundCursor s); cbn;
    repeat match goal with |- context [if ?b then _ else _] => destruct b; cbn end;
    now rewrite ?app_nil_r.
Qed.

Lemma revealEditorLocation_items c lineCount tokens :
  items (revealEditorLocation c lineCount tokens)
  = items_from c false tokens
    ++ (if existsb (starts_after c) tokens then [] else [cursorItem (lineCount - 1)]).
Proof.
  unfold revealEditorLocation.
  rewrite scan_finish_items, scan_tokens_items, scan_tokens_found. reflexivity.
Qed.

(** *** The resolver's variables do not see the cursor *)

Lemma scan_token_same_levels c1 c2 s1 s2 token :
  same_levels s1 s2 ->
  same_levels (scan_token c1 s1 token) (scan_token c2 s2 token).
Proof.
  destruct s1 as [i1 e1 a1 p1 f1], s2 as [i2 e2 a2 p2 f2].
  unfold same_levels; cbn. intros (-> & -> & ->).
  unfold scan_token.
  destruct (token_map token) as [[r e]|]; cbn; [ | auto ].
  destruct (negb f1 && (c1 <? r)), (negb f2 && (c2 <? r)); cbn;
    token_kind token; cbn;
    repeat match goal with |- context [if ?b then _ else _] => destruct b; cbn end;
    auto.
Qed.

Lemma scan_tokens_same_levels c1 c2 tokens : forall s1 s2,
  same_levels s1 s2 ->
  same_levels (scan_tokens c1 tokens s1) (scan_tokens c2 tokens s2).
Proof.
  induction tokens as [|token rest IH]; intros s1 s2 H; [ exact H | ].
  unfold scan_tokens in *. cbn [fold_left].
  apply IH, scan_token_same_levels, H.
Qed.

Lemma scan_finish_slideLevel l1 l2 s1 s2 :
  same_levels s1 s2 ->
  slideLevel (scan_finish l1 s1) = slideLevel (scan_finish l2 s2).
Proof.
  destruct s1 as [i1 e1 a1 p1 f1], s2 as [i2 e2 a2 p2 f2].
  unfold same_levels; cbn. intros (-> & -> & ->).
  unfold scan_finish; cbn.
  destruct f1, f2; cbn; destruct (0 <? p2); cbn;
    repeat match goal with |- context [if ?b then _ else _] => destruct b; cbn end;
    reflexivity.
Qed.

Lemma slideLevel_any_cursor c1 c2 l1 l2 tokens :
  slideLevel (revealEditorLocation c1 l1 tokens)
  = slideLevel (revealEditorLocation c2 l2 tokens).
Proof.
  unfold revealEditorLocation.
  apply scan_finish_slideLevel, scan_tokens_same_levels.
  repeat split.
Qed.

(** *** The walk over the items *)

Lemma token_items_no_cursor token :
  forallb (fun i => negb (is_cursor i)) (token_items token) = true.
Proof.
  unfold token_items. destruct (token_map token) as [[r e]|]; [ | reflexivity ].
  token_kind token; reflexivity.
Qed.

Lemma boundaries_app sl l1 l2 :
  boundaries sl (l1 ++ l2) = boundaries sl l1 + boundaries sl l2.
Proof.
  unfold boundaries. rewrite filter_app, length_app. lia.
Qed.


Lemma boundaries_nonneg sl l : 0 <= boundaries sl l.
Proof. unfold boundaries. lia. Qed.

Lemma slideIndexAtCursor_skip sl l1 : forall l2 i,
  forallb (fun i => negb (is_cursor i)) l1 = true ->
  slideIndexAtCursor sl (l1 ++ l2) i
  = slideIndexAtCursor sl l2 (i + boundaries sl l1).
Proof.
  induction l1 as [|item l1 IH]; intros l2 i H.
  - cbn. f_equal. unfold boundaries; cbn; lia.
  - cbn in H. apply andb_true_iff in H as [Hi Hl].
    cbn [app slideIndexAtCursor]. unfold boundaries, is_cursor in *.
    cbn [filter]. unfold counts at 1.
    destruct (type item); try discriminate; try destruct (number_le _ _);
      rewrite IH by exact Hl; f_equal; cbn [List.length]; unfold boundaries; lia.
Qed.

Lemma slideIndexAtCursor_items sl c x tokens : forall i,
  slideIndexAtCursor sl
    (items_from c false tokens
       ++ (if existsb (starts_after c) tokens then [] else [cursorItem x])) i
  = Some (Z.max (index_at sl c tokens i) 0).
Proof.
  induction tokens as [|token rest IH]; intros i; [ reflexivity | ].
  cbn [items_from existsb index_at negb andb].
  destruct (starts_after c token); cbn [orb app]; [ reflexivity | ].
  rewrite <- app_assoc, slideIndexAtCursor_skip by apply token_items_no_cursor.
  apply IH.
Qed.

Lemma revealSlideIndex_index_at c lineCount tokens :
  revealSlideIndex c lineCount tokens
  = Z.max (index_at (slideLevel (revealEditorLocation c lineCount tokens)) c tokens (-1)) 0.
Proof.
  unfold revealSlideIndex. cbv zeta.
  rewrite revealEditorLocation_items, slideIndexAtCursor_items. reflexivity.
Qed.

Lemma index_at_ge sl c tokens : forall i, i <= index_at sl c tokens i.
Proof.
  induction tokens as [|token rest IH]; intros i; cbn; [ lia | ].
  destruct (starts_after c token); [ lia | ].
  specialize (IH (i + boundaries sl (token_items token))).
  pose proof (boundaries_nonneg sl (token_items token)). lia.
Qed.

Lemma starts_after_mono c1 c2 token :
  c1 <= c2 -> starts_after c2 token = true -> starts_after c1 token = true.
Proof.
  unfold starts_after. destruct (token_map token) as [[r e]|]; [ | easy ].
  rewrite !Z.ltb_lt. lia.
Qed.

Lemma index_at_mono sl c1 c2 tokens : forall i,
  c1 <= c2 -> index_at sl c1 tokens i <= index_at sl c2 tokens i.
Proof.
  induction tokens as [|token rest IH]; intros i H; cbn; [ lia | ].
  destruct (starts_after c2 token) eqn:E2.
  - rewrite (starts_after_mono c1 c2 token H E2). lia.
  - destruct (starts_after c1 token).
    + pose proof (index_at_ge sl c2 rest (i + boundaries sl (token_items token))).
      pose proof (boundaries_nonneg sl (token_items token)). lia.
    + apply IH, H.
Qed.

(** *** The front matter lookup *)

Lemma get_of_truthy v key :
  truthy v = true -> exists w, get v key = Normal w.
Proof. destruct v; cbn; try discriminate; eauto. Qed.

Lemma get_opt_returns v key : exists w, get_opt v key = Normal w.
Proof. destruct v; cbn; eauto. Qed.

(** Inside the [try], only the decoder can throw. *)
Lemma slideLevelFromYaml_try_decoded str meta :
  parseFrontMatterStr str = Normal meta ->
  exists v, slideLevelFromYaml_try str = Normal v.
Proof.
  unfold slideLevelFromYaml_try. intros ->. cbn.
  destruct (truthy meta) eqn:T; [ | eauto ].
  destruct (get_of_truthy meta "slide-level" T) as [top ->]. cbn.
  destruct (truthy top); [ eauto | ].
  destruct (get_of_truthy meta "format" T) as [format ->]. cbn.
  destruct (get_opt_returns format "revealjs") as [revealjs ->]. cbn.
  destruct (get_opt_returns revealjs "slide-level") as [nested ->]. cbn.
  eauto.
Qed.

Lemma slideLevelFromYaml_try_thrown str e :
  slideLevelFromYaml_try str = Throw e -> parseFrontMatterStr str = Throw e.
Proof.
  intros H. destruct (parseFrontMatterStr str) as [meta|e'] eqn:P.
  - destruct (slideLevelFromYaml_try_decoded str meta P) as [v Hv]. congruence.
  - unfold slideLevelFromYaml_try in H. rewrite P in H. exact H.
Qed.

Lemma slideLevelFromYaml_thrown str e :
  parseFrontMatterStr str = Throw e -> slideLevelFromYaml str = JsNull.
Proof.
  unfold slideLevelFromYaml, slideLevelFromYaml_try. intros ->. reflexivity.
Qed.



(** A format or revealjs entry that is missing (or null) leaves nothing to
    find below it. *)
Lemma slideLevelFromYaml_no_nesting str fields :
  parseFrontMatterStr str = Normal (JsObject fields) ->
  truthy (lookup "slide-level" fields) = false ->
  nullish (lookup "format" fields) = true
  \/ (exists format, lookup "format" fields = JsObject format
                     /\ nullish (lookup "revealjs" format) = true) ->
  slideLevelFromYaml str = JsNull.
Proof.
  unfold slideLevelFromYaml, slideLevelFromYaml_try. intros -> T H. cbn.
  rewrite T. cbn. destruct H as [H | (format & -> & H)].
  - destruct (lookup "format" fields); try discriminate; reflexivity.
  - cbn. destruct (lookup "revealjs" format); try discriminate; reflexivity.
Qed.

(** *** The scan's levels *)

Lemma scan_tokens_app c l1 l2 s :
  scan_tokens c (l1 ++ l2) s = scan_tokens c l2 (scan_tokens c l1 s).
Proof. apply fold_left_app. Qed.

Lemma scan_finish_inferred lineCount s :
  slideLevel (scan_finish lineCount s)
  = Js.or (explicitSlideLevel s) (JsNumber (inferred s)).
Proof.
  destruct s as [its ex au pe fo]. unfold scan_finish, inferred; cbn.
  destruct fo; cbn; destruct (0 <? pe); cbn;
    repeat match goal with |- context [if ?b then _ else _] => destruct b; cbn end;
    reflexivity.
Qed.

Lemma scan_token_explicit c s token :
  explicitSlideLevel (scan_token c s token)
  = if is_front_matter token then slideLevelFromYaml (token_markup token)
    else explicitSlideLevel s.
Proof.
  destruct s as [its ex au pe fo]. unfold scan_token, is_front_matter.
  destruct (token_map token) as [[r e]|]; cbn; [ | reflexivity ].
  destruct (negb fo && (c <? r)); cbn; token_kind token; cbn;
    repeat match goal with |- context [if ?b then _ else _] => destruct b; cbn end;
    reflexivity.
Qed.



Lemma scan_tokens_explicit_null c tokens : forall s,
  explicitSlideLevel s = JsNull ->
  (forall t, In t tokens -> is_front_matter t = true ->
             exists e, parseFrontMatterStr (token_markup t) = Throw e) ->
  explicitSlideLevel (scan_tokens c tokens s) = JsNull.
Proof.
  induction tokens as [|token rest IH]; intros s Hs H; [ exact Hs | ].
  unfold scan_tokens in *. cbn [fold_left]. apply IH.
  - rewrite scan_token_explicit. destruct (is_front_matter token) eqn:F; [ | exact Hs ].
    destruct (H token (or_introl eq_refl) F) as [e He].
    now apply slideLevelFromYaml_thrown with e.
  - intros t Ht. apply H. right. exact Ht.
Qed.

(** The accepted level is a committed candidate, hence positive. *)
Lemma scan_token_auto_pos c s token :
  0 < autoSlideLevel s -> 0 < autoSlideLevel (scan_token c s token).
Proof.
  destruct s as [its ex au pe fo]. unfold scan_token. cbn. intros H.
  destruct (token_map token) as [[r e]|]; cbn; [ | exact H ].
  destruct (negb fo && (c <? r)); cbn; token_kind token; cbn;
    repeat match goal with |- context [if ?b then _ else _] => destruct b eqn:?; cbn end;
    rewrite ?Z.ltb_lt in *; lia.
Qed.

Lemma scan_tokens_auto_pos c tokens : forall s,
  0 < autoSlideLevel s -> 0 < autoSlideLevel (scan_tokens c tokens s).
Proof.
  induction tokens as [|token rest IH]; intros s H; [ exact H | ].
  unfold scan_tokens in *. cbn [fold_left]. apply IH, scan_token_auto_pos, H.
Qed.

Lemma inferred_nonneg s : 0 < autoSlideLevel s -> 0 <= inferred s.
Proof.
  unfold inferred. intros H.
  destruct (0 <? pendingAutoSlideLevel s) eqn:P; cbv zeta;
    match goal with |- context [if ?b then _ else _] => destruct b end;
    rewrite ?Z.ltb_lt in *; lia.
Qed.

Lemma scan_token_no_heading c s token :
  is_heading token = false ->
  autoSlideLevel s = MAX_SAFE_INTEGER /\ pendingAutoSlideLevel s = 0 ->
  autoSlideLevel (scan_token c s token) = MAX_SAFE_INTEGER
  /\ pendingAutoSlideLevel (scan_token c s token) = 0.
Proof.
  destruct s as [its ex au pe fo]. unfold scan_token, is_heading. cbn.
  intros Hh [-> ->].
  destruct (token_map token) as [[r e]|]; cbn; [ | auto ].
  destruct (negb fo && (c <? r)); cbn; token_kind token; cbn; auto; discriminate.
Qed.

Lemma scan_tokens_no_heading c tokens : forall s,
  (forall t, In t tokens -> is_heading t = false) ->
  autoSlideLevel s = MAX_SAFE_INTEGER /\ pendingAutoSlideLevel s = 0 ->
  inferred (scan_tokens c tokens s) = 0.
Proof.
  induction tokens as [|token rest IH]; intros s H Hs.
  - destruct Hs as [Ha Hp]. unfold inferred. cbn. rewrite Hp, Ha. reflexivity.
  - unfold scan_tokens in *. cbn [fold_left]. apply IH.
    + intros t Ht. apply H. right. exact Ht.
    + apply scan_token_no_heading; [ apply H; left; reflexivity | exact Hs ].
Qed.

Lemma scan_token_heading c s token row e :
  token_map token = Some (row, e) ->
  token_type token = "heading_open" ->
  explicitSlideLevel (scan_token c s token) = explicitSlideLevel s
  /\ autoSlideLevel (scan_token c s token) = autoSlideLevel s
  /\ pendingAutoSlideLevel (scan_token c s token)
     = if getHeaderLevel (token_markup token) <? autoSlideLevel s
       then getHeaderLevel (token_markup token) else 0.
Proof.
  destruct s as [its ex au pe fo]. intros Hmap Htype.
  unfold scan_token. rewrite Hmap, Htype. cbn.
  destruct (negb fo && (c <? row)); cbn;
    destruct (getHeaderLevel (token_markup token) <? au); auto.
Qed.

(** *** Where the cursor item lands *)

Lemma no_cursor_app l1 l2 : no_cursor (l1 ++ l2) = no_cursor l1 && no_cursor l2.
Proof. apply forallb_app. Qed.

Lemma items_from_found c tokens : no_cursor (items_from c true tokens) = true.
Proof.
  induction tokens as [|token rest IH]; [ reflexivity | ].
  cbn. rewrite no_cursor_app, IH. unfold no_cursor. now rewrite token_items_no_cursor.
Qed.

Lemma items_from_split c x tokens :
  exists before after,
    items_from c false tokens
      ++ (if existsb (starts_after c) tokens then [] else [cursorItem x])
    = before ++ cursorItem (if existsb (starts_after c) tokens then c else x) :: after
    /\ no_cursor before = true /\ no_cursor after = true.
Proof.
  induction tokens as [|token rest IH].
  - exists [], []. repeat split.
  - cbn [items_from existsb negb andb]. destruct (starts_after c token); cbn [orb].
    + exists [], (token_items token ++ items_from c true rest). rewrite app_nil_r.
      repeat split. rewrite no_cursor_app, items_from_found.
      unfold no_cursor. now rewrite token_items_no_cursor.
    + destruct IH as (before & after & E & Hb & Ha).
      exists (token_items token ++ before), after.
      rewrite <- !app_assoc, E. repeat split; [ | exact Ha ].
      rewrite no_cursor_app, Hb. unfold no_cursor. now rewrite token_items_no_cursor.
Qed.

Lemma slideIndexAtCursor_at sl before r after i :
  no_cursor before = true ->
  slideIndexAtCursor sl (before ++ cursorItem r :: after) i
  = Some (Z.max (i + boundaries sl before) 0).
Proof.
  intros H. rewrite slideIndexAtCursor_skip by exact H. reflexivity.
Qed.

Lemma count_cursor_none l :
  no_cursor l = true -> filter is_cursor l = [].
Proof.
  induction l as [|i l IH]; [ reflexivity | ]. cbn.
  intros H. apply andb_true_iff in H as [Hi Hl].
  destruct (is_cursor i); [ discriminate | auto ].
Qed.

Lemma items_from_before c before rest :
  (forall t, In t before -> starts_after c t = false) ->
  items_from c false (before ++ rest)
  = flat_map token_items before ++ items_from c false rest.
Proof.
  induction before as [|token before IH]; intros H; [ reflexivity | ].
  cbn [app items_from flat_map negb andb].
  rewrite (H token) by (left; reflexivity).
  rewrite IH, app_assoc; [ reflexivity | ].
  intros t Ht. apply H. right. exact Ht.
Qed.

Lemma flat_map_no_cursor tokens : no_cursor (flat_map token_items tokens) = true.
Proof.
  induction tokens as [|token rest IH]; [ reflexivity | ].
  cbn. rewrite no_cursor_app, IH. unfold no_cursor. now rewrite token_items_no_cursor.
Qed.


(** ** The claims *)

(** C1, as the code has it. On the stream front matter (row 0, no slide
    level), heading (row 2, level 1), heading (row 5, level 2), horizontal
    rule (row 9) with the cursor at line 6, the resolver infers slide level 0:
    the level 2 heading replaces the level 1 candidate, and the horizontal
    rule drops that candidate before anything accepts it. With slide level 0
    no heading counts, the title is the only item counted before the cursor,
    and the locator returns ordinal 0. *)
Theorem scenario_level_0_ordinal_0 lineCount m0 m1 m2 m3 e0 e1 e2 e3 fields :
  parseFrontMatterStr m0 = Normal (JsObject fields) ->
  lookup "slide-level" fields = JsUndefined ->
  lookup "format" fields = JsUndefined ->
  getHeaderLevel m1 = 1 ->
  getHeaderLevel m2 = 2 ->
  slideLevel
    (revealEditorLocation 6 lineCount
       [ mkToken "front_matter" (Some (0, e0)) m0;
         mkToken "heading_open" (Some (2, e1)) m1;
         mkToken "heading_open" (Some (5, e2)) m2;
         mkToken "hr" (Some (9, e3)) m3 ]) = JsNumber 0
  /\ revealSlideIndex 6 lineCount
       [ mkToken "front_matter" (Some (0, e0)) m0;
         mkToken "heading_open" (Some (2, e1)) m1;
         mkToken "heading_open" (Some (5, e2)) m2;
         mkToken "hr" (Some (9, e3)) m3 ] = 0.
Proof.
  intros Hparse Htop Hformat H1 H2.
  assert (Hyaml : slideLevelFromYaml m0 = JsNull).
  { apply slideLevelFromYaml_no_nesting with fields; [ exact Hparse | | ].
    - now rewrite Htop.
    - left. now rewrite Hformat. }
  unfold revealSlideIndex, revealEditorLocation, scan_tokens.
  cbn [fold_left]. unfold scan_token. cbn. rewrite Hyaml, H1, H2. cbn.
  split; reflexivity.
Qed.

(** C2, as the code has it. A heading whose level is equal to or deeper than
    the running minimum [autoSlideLevel] drops the pending candidate instead
    of committing it: [pendingAutoSlideLevel] becomes 0 while
    [autoSlideLevel] and the explicit level keep their values. Nothing waits
    for a horizontal rule afterwards: a heading strictly shallower than
    [autoSlideLevel] that comes next is pending again. *)
Theorem deeper_heading_drops_pending c tokens token row e :
  token_map token = Some (row, e) ->
  token_type token = "heading_open" ->
  autoSlideLevel (scan_tokens c tokens scan_start)
    <= getHeaderLevel (token_markup token) ->
  autoSlideLevel (scan_tokens c (tokens ++ [token]) scan_start)
    = autoSlideLevel (scan_tokens c tokens scan_start)
  /\ pendingAutoSlideLevel (scan_tokens c (tokens ++ [token]) scan_start) = 0
  /\ explicitSlideLevel (scan_tokens c (tokens ++ [token]) scan_start)
     = explicitSlideLevel (scan_tokens c tokens scan_start)
  /\ forall next row' e',
       token_map next = Some (row', e') ->
       token_type next = "heading_open" ->
       getHeaderLevel (token_markup next)
         < autoSlideLevel (scan_tokens c tokens scan_start) ->
       pendingAutoSlideLevel (scan_tokens c (tokens ++ [token; next]) scan_start)
       = getHeaderLevel (token_markup next).
Proof.
  intros Hmap Htype Hlevel.
  rewrite (scan_tokens_app c tokens).
  set (s := scan_tokens c tokens scan_start) in *.
  unfold scan_tokens at 1 2 3. cbn [fold_left].
  destruct (scan_token_heading c s token row e Hmap Htype) as (He & Ha & Hp).
  apply Z.ltb_ge in Hlevel. rewrite Hlevel in Hp.
  repeat split; try assumption.
  intros next row' e' Hmap' Htype' Hlevel'.
  change [token; next] with ([token] ++ [next]).
  rewrite app_assoc, (scan_tokens_app c (tokens ++ [token])).
  rewrite (scan_tokens_app c tokens). fold s.
  unfold scan_tokens. cbn [fold_left].
  destruct (scan_token_heading c (scan_token c s token) next row' e' Hmap' Htype')
    as (_ & _ & Hp').
  rewrite Hp', Ha. apply Z.ltb_lt in Hlevel'. now rewrite Hlevel'.
Qed.


(** C4. For a fixed token stream the ordinal that [revealSlideIndex] returns
    does not decrease when the cursor line increases. *)
Theorem revealSlideIndex_monotone c1 c2 lineCount tokens :
  c1 <= c2 ->
  revealSlideIndex c1 lineCount tokens <= revealSlideIndex c2 lineCount tokens.
Proof.
  intros H. rewrite !revealSlideIndex_index_at.
  rewrite (slideLevel_any_cursor c1 c2 lineCount lineCount).
  apply Z.max_le_compat_r, index_at_mono, H.
Qed.


(** C6. The resolver never raises. Inside [slideLevelFromYaml]'s [try] only
    the decoder can throw, and what it throws is caught and answered with
    null. So a stream whose front matter blocks all fail to decode has no
    explicit level: the resolved slide level is the inferred one, a number
    that is never negative, and it is 0 when the stream has no line-mapped
    heading. *)
Theorem resolver_never_raises c lineCount tokens :
  (forall t, In t tokens -> is_front_matter t = true ->
             exists e, parseFrontMatterStr (token_markup t) = Throw e) ->
  (forall str e, slideLevelFromYaml_try str = Throw e ->
                 parseFrontMatterStr str = Throw e
                 /\ slideLevelFromYaml str = JsNull)
  /\ (forall t, In t tokens -> is_front_matter t = true ->
                slideLevelFromYaml (token_markup t) = JsNull)
  /\ explicitSlideLevel (scan_tokens c tokens scan_start) = JsNull
  /\ slideLevel (revealEditorLocation c lineCount tokens)
     = JsNumber (if existsb is_heading tokens
                 then inferred (scan_tokens c tokens scan_start) else 0)
  /\ 0 <= inferred (scan_tokens c tokens scan_start).
Proof.
  intros H.
  assert (E : explicitSlideLevel (scan_tokens c tokens scan_start) = JsNull)
    by (apply scan_tokens_explicit_null; [ reflexivity | exact H ]).
  split; [ | split; [ | split; [ exact E | split ] ] ].
  - intros str e He. apply slideLevelFromYaml_try_thrown in He.
    split; [ exact He | now apply slideLevelFromYaml_thrown with e ].
  - intros t Ht Hfm. destruct (H t Ht Hfm) as [e He].
    now apply slideLevelFromYaml_thrown with e.
  - unfold revealEditorLocation. rewrite scan_finish_inferred, E. cbn.
    destruct (existsb is_heading tokens) eqn:X; [ reflexivity | ].
    f_equal. apply scan_tokens_no_heading; [ | split; reflexivity ].
    intros t Ht. destruct (is_heading t) eqn:Hh; [ | reflexivity ].
    assert (existsb is_heading tokens = true)
      by (apply existsb_exists; exists t; auto).
    congruence.
  - apply inferred_nonneg, scan_tokens_auto_pos. reflexivity.
Qed.



(** C9. The items of an editor location hold exactly one cursor item: the
    one the scan inserts, at the cursor line, when the cursor line is
    strictly before the start line of some line-mapped token, and otherwise
    the one appended for the document's last line. The walk of
    [revealSlideIndex] returns at that item, so it never runs off the end of
    the items into the trailing [return 0]. *)
Theorem one_cursor_item c lineCount tokens :
  exists before after,
    items (revealEditorLocation c lineCount tokens)
    = before
        ++ cursorItem (if existsb (starts_after c) tokens then c else lineCount - 1)
        :: after
    /\ no_cursor before = true
    /\ no_cursor after = true
    /\ List.length (filter is_cursor (items (revealEditorLocation c lineCount tokens)))
       = 1%nat
    /\ slideIndexAtCursor (slideLevel (revealEditorLocation c lineCount tokens))
         (items (revealEditorLocation c lineCount tokens)) (-1)
       = Some (revealSlideIndex c lineCount tokens)
    /\ revealSlideIndex c lineCount tokens
       = Z.max (boundaries (slideLevel (revealEditorLocation c lineCount tokens)) before - 1) 0.
Proof.
  destruct (items_from_split c (lineCount - 1) tokens) as (before & after & E & Hb & Ha).
  exists before, after.
  assert (I : items (revealEditorLocation c lineCount tokens)
              = before
                  ++ cursorItem (if existsb (starts_after c) tokens
                                 then c else lineCount - 1) :: after)
    by (rewrite revealEditorLocation_items; exact E).
  unfold revealSlideIndex. cbv zeta. rewrite I.
  rewrite slideIndexAtCursor_at by exact Hb.
  repeat split; try assumption.
  - rewrite filter_app. cbn [filter]. unfold is_cursor at 2. cbn.
    rewrite (count_cursor_none before Hb), (count_cursor_none after Ha). reflexivity.
  - f_equal. lia.
Qed.

(** C10. The resolved slide level does not depend on the cursor position:
    two runs of [revealEditorLocation] over the same token stream, at any two
    cursor lines, give equal [slideLevel] values. *)
Theorem slideLevel_ignores_cursor c1 c2 lineCount tokens :
  slideLevel (revealEditorLocation c1 lineCount tokens)
  = slideLevel (revealEditorLocation c2 lineCount tokens).
Proof.
  unfold revealEditorLocation.
  apply scan_finish_slideLevel.
  apply scan_tokens_same_levels.
  unfold same_levels. auto.
Qed.


(** ** Further properties of the scan and of the walk *)

Lemma scan_tokens_mapped c tokens : forall s,
  scan_tokens c tokens s = scan_tokens c (filter is_mapped tokens) s.
Proof.
  induction tokens as [|token rest IH]; intros s; [ reflexivity | ].
  cbn [filter]. unfold is_mapped at 1.
  destruct (token_map token) as [[r e]|] eqn:M.
  - unfold scan_tokens in *. cbn [fold_left]. apply IH.
  - unfold scan_tokens in *. cbn [fold_left].
    replace (scan_token c s token) with s; [ apply IH | ].
    unfold scan_token. now rewrite M.
Qed.

(** X1. Tokens without a source map are ignored entirely: the editor
    location and the slide index are those of the stream with these tokens
    taken out. *)
Theorem unmapped_tokens_ignored c lineCount tokens :
  revealEditorLocation c lineCount tokens
  = revealEditorLocation c lineCount (filter is_mapped tokens)
  /\ revealSlideIndex c lineCount tokens
     = revealSlideIndex c lineCount (filter is_mapped tokens).
Proof.
  assert (E : revealEditorLocation c lineCount tokens
              = revealEditorLocation c lineCount (filter is_mapped tokens)).
  { unfold revealEditorLocation. now rewrite scan_tokens_mapped. }
  split; [ exact E | ]. unfold revealSlideIndex. now rewrite E.
Qed.

Lemma boundaries_le_length sl l : boundaries sl l <= Z.of_nat (List.length l).
Proof.
  unfold boundaries. pose proof (filter_length_le (counts sl) l). lia.
Qed.

Lemma index_at_le sl c tokens : forall i,
  index_at sl c tokens i <= i + boundaries sl (flat_map token_items tokens).
Proof.
  induction tokens as [|token rest IH]; intros i.
  - cbn. unfold boundaries. cbn. lia.
  - cbn [index_at flat_map]. rewrite boundaries_app.
    pose proof (boundaries_nonneg sl (token_items token)).
    pose proof (boundaries_nonneg sl (flat_map token_items rest)).
    destruct (starts_after c token); [ lia | ].
    specialize (IH (i + boundaries sl (token_items token))). lia.
Qed.

(** X2. The slide index is never negative, and it is below the number of
    items that count as slide boundaries under the resolved slide level
    (title, horizontal rule and qualifying heading items), unless there is
    none and it is 0. *)
Theorem revealSlideIndex_bounds c lineCount tokens :
  0 <= revealSlideIndex c lineCount tokens
  /\ revealSlideIndex c lineCount tokens
     <= Z.max 0
          (boundaries (slideLevel (revealEditorLocation c lineCount tokens))
             (flat_map token_items tokens) - 1).
Proof.
  rewrite revealSlideIndex_index_at.
  pose proof (index_at_le (slideLevel (revealEditorLocation c lineCount tokens))
                c tokens (-1)).
  lia.
Qed.

Lemma items_from_none c tokens :
  existsb (starts_after c) tokens = false ->
  items_from c false tokens = flat_map token_items tokens.
Proof.
  intros H. rewrite <- (app_nil_r tokens) at 1.
  rewrite items_from_before; [ cbn; apply app_nil_r | ].
  intros t Ht. destruct (starts_after c t) eqn:S; [ | reflexivity ].
  assert (existsb (starts_after c) tokens = true)
    by (apply existsb_exists; exists t; auto).
  congruence.
Qed.

Lemma items_from_true c tokens :
  items_from c true tokens = flat_map token_items tokens.
Proof.
  induction tokens as [|token rest IH]; [ reflexivity | ].
  cbn. now rewrite IH.
Qed.

(** X3. The cursor before all content. When the first token that adds an
    item or starts after the cursor line does start after it, the cursor
    item is the first item and the slide index is 0. *)
Theorem cursor_before_all_items c lineCount before token after :
  (forall t, In t before -> starts_after c t = false /\ token_items t = []) ->
  starts_after c token = true ->
  items (revealEditorLocation c lineCount (before ++ token :: after))
  = cursorItem c :: flat_map token_items (token :: after)
  /\ revealSlideIndex c lineCount (before ++ token :: after) = 0.
Proof.
  intros Hbefore Htoken.
  assert (Hflat : flat_map token_items before = []).
  { clear - Hbefore. induction before as [|b before IH]; [ reflexivity | ].
    cbn. rewrite (proj2 (Hbefore b (or_introl eq_refl))). cbn.
    apply IH. intros t Ht. apply Hbefore. right. exact Ht. }
  assert (I : items (revealEditorLocation c lineCount (before ++ token :: after))
              = cursorItem c :: flat_map token_items (token :: after)).
  { rewrite revealEditorLocation_items.
    rewrite items_from_before by (intros t Ht; apply Hbefore, Ht).
    rewrite Hflat, existsb_app. cbn [existsb items_from negb andb app flat_map].
    rewrite Htoken, orb_true_r. cbn [orb]. rewrite items_from_true.
    now rewrite app_nil_r. }
  split; [ exact I | ].
  unfold revealSlideIndex. cbv zeta. rewrite I. reflexivity.
Qed.

(** X4. The cursor after all content. When no token starts after the cursor
    line, the cursor item is appended last, with the document's last line as
    its row, and the slide index is that of the last slide: the number of
    boundary items minus one (0 when there is none). *)
Theorem cursor_after_all_items c lineCount tokens :
  (forall t, In t tokens -> starts_after c t = false) ->
  items (revealEditorLocation c lineCount tokens)
  = flat_map token_items tokens ++ [cursorItem (lineCount - 1)]
  /\ revealSlideIndex c lineCount tokens
     = Z.max 0
         (boundaries (slideLevel (revealEditorLocation c lineCount tokens))
            (flat_map token_items tokens) - 1).
Proof.
  intros H.
  assert (X : existsb (starts_after c) tokens = false).
  { destruct (existsb (starts_after c) tokens) eqn:X; [ | reflexivity ].
    apply existsb_exists in X as (t & Ht & Hs). rewrite (H t Ht) in Hs.
    discriminate. }
  assert (I : items (revealEditorLocation c lineCount tokens)
              = flat_map token_items tokens ++ [cursorItem (lineCount - 1)]).
  { rewrite revealEditorLocation_items, X, items_from_none by exact X.
    reflexivity. }
  split; [ exact I | ].
  unfold revealSlideIndex. cbv zeta. rewrite I.
  rewrite slideIndexAtCursor_at by apply flat_map_no_cursor. lia.
Qed.

Lemma items_from_without_cursor c tokens : forall found,
  filter (fun i => negb (is_cursor i)) (items_from c found tokens)
  = flat_map token_items tokens.
Proof.
  assert (K : forall token,
             filter (fun i => negb (is_cursor i)) (token_items token)
             = token_items token).
  { intros token. apply forallb_filter_id, token_items_no_cursor. }
  induction tokens as [|token rest IH]; intros found; [ reflexivity | ].
  cbn [items_from flat_map].
  destruct (negb found && starts_after c token); cbn [filter is_cursor cursorItem
    simpleItem type negb]; rewrite filter_app, K, IH; reflexivity.
Qed.

(** X5. The cursor only adds its own item. Whatever the cursor line, the
    other items of the location are one per front matter, horizontal rule
    and heading token, in stream order; so the items are one more than
    these. *)
Theorem items_without_cursor c lineCount tokens :
  filter (fun i => negb (is_cursor i))
    (items (revealEditorLocation c lineCount tokens))
  = flat_map token_items tokens
  /\ List.length (items (revealEditorLocation c lineCount tokens))
     = S (List.length (flat_map token_items tokens)).
Proof.
  assert (F : filter (fun i => negb (is_cursor i))
                (items (revealEditorLocation c lineCount tokens))
              = flat_map token_items tokens).
  { rewrite revealEditorLocation_items, filter_app, items_from_without_cursor.
    destruct (existsb (starts_after c) tokens); cbn; now rewrite app_nil_r. }
  split; [ exact F | ].
  destruct (items_from_split c (lineCount - 1) tokens) as (b & a & E & Hb & Ha).
  rewrite <- revealEditorLocation_items in E.
  rewrite <- F, E, filter_app. cbn [filter is_cursor cursorItem simpleItem type negb].
  rewrite !length_app. cbn [List.length].
  rewrite (forallb_filter_id _ _ Hb), (forallb_filter_id _ _ Ha). lia.
Qed.

Lemma index_at_same_side sl c1 c2 tokens : forall i,
  (forall t, In t tokens -> starts_after c1 t = starts_after c2 t) ->
  index_at sl c1 tokens i = index_at sl c2 tokens i.
Proof.
  induction tokens as [|token rest IH]; intros i H; [ reflexivity | ].
  cbn [index_at]. rewrite (H token (or_introl eq_refl)).
  destruct (starts_after c2 token); [ reflexivity | ].
  apply IH. intros t Ht. apply H. right. exact Ht.
Qed.

(** X6. Two cursor lines that no token start separates (every line-mapped
    token starts after both or after neither) give the same slide index:
    moving the cursor within the lines of one block does not change the
    slide. *)
Theorem same_side_same_index c1 c2 lineCount tokens :
  (forall t r e, In t tokens -> token_map t = Some (r, e) -> (c1 < r <-> c2 < r)) ->
  revealSlideIndex c1 lineCount tokens = revealSlideIndex c2 lineCount tokens.
Proof.
  intros H. rewrite !revealSlideIndex_index_at.
  rewrite (slideLevel_any_cursor c1 c2 lineCount lineCount).
  f_equal. apply index_at_same_side.
  intros t Ht. unfold starts_after.
  destruct (token_map t) as [[r e]|] eqn:M; [ | reflexivity ].
  specialize (H t r e Ht M).
  destruct (c1 <? r) eqn:A, (c2 <? r) eqn:B; try reflexivity;
    rewrite ?Z.ltb_lt, ?Z.ltb_ge in *; lia.
Qed.

(** X7. The document's line count reaches the row of an appended cursor
    item and nothing else: the slide index and the resolved slide level are
    the same for every line count. *)
Theorem lineCount_irrelevant c l1 l2 tokens :
  revealSlideIndex c l1 tokens = revealSlideIndex c l2 tokens
  /\ slideLevel (revealEditorLocation c l1 tokens)
     = slideLevel (revealEditorLocation c l2 tokens).
Proof.
  split; [ | apply slideLevel_any_cursor ].
  rewrite !revealSlideIndex_index_at.
  now rewrite (slideLevel_any_cursor c c l1 l2).
Qed.

Lemma token_items_unmapped token :
  token_map token = None -> token_items token = [].
Proof. unfold token_items. now intros ->. Qed.

Lemma rows_after_first token rest r e t r' e' :
  in_source_order (token :: rest) ->
  token_map token = Some (r, e) ->
  In t rest -> token_map t = Some (r', e') -> r <= r'.
Proof.
  unfold in_source_order. cbn [rows]. intros S M Ht M'. rewrite M in S.
  apply StronglySorted_inv in S as [_ F]. rewrite Forall_forall in F.
  apply F. clear - Ht M'.
  induction rest as [|x rest IH]; [ destruct Ht | ].
  cbn [rows]. destruct Ht as [-> | Ht].
  - rewrite M'. left. reflexivity.
  - destruct (token_map x) as [[rx ex]|]; [ right | ]; apply IH, Ht.
Qed.

Lemma in_source_order_tail token rest :
  in_source_order (token :: rest) -> in_source_order rest.
Proof.
  unfold in_source_order. cbn [rows].
  destruct (token_map token) as [[r e]|]; [ | easy ].
  intros S. now apply StronglySorted_inv in S.
Qed.

Lemma up_to_all_after sl c tokens :
  (forall t r e, In t tokens -> token_map t = Some (r, e) -> c < r) ->
  boundaries sl (flat_map token_items (up_to c tokens)) = 0.
Proof.
  induction tokens as [|token rest IH]; intros H; [ reflexivity | ].
  unfold up_to in *. cbn [filter]. unfold starts_after at 1.
  destruct (token_map token) as [[r e]|] eqn:M.
  - assert (c < r) by (apply (H token r e); [ left; reflexivity | exact M ]).
    replace (c <? r) with true by (symmetry; apply Z.ltb_lt; lia).
    cbn [negb]. apply IH. intros t r' e' Ht. apply H. right. exact Ht.
  - cbn [negb flat_map]. rewrite (token_items_unmapped token M). cbn [app].
    apply IH. intros t r' e' Ht. apply H. right. exact Ht.
Qed.

Lemma index_at_sorted sl c tokens : forall i,
  in_source_order tokens ->
  index_at sl c tokens i
  = i + boundaries sl (flat_map token_items (up_to c tokens)).
Proof.
  induction tokens as [|token rest IH]; intros i S.
  - cbn. unfold boundaries. cbn. lia.
  - cbn [index_at].
    change (up_to c (token :: rest))
      with (if negb (starts_after c token)
            then token :: up_to c rest else up_to c rest).
    destruct (starts_after c token) eqn:A; cbn [negb].
    + rewrite up_to_all_after; [ lia | ].
      intros t r' e' Ht M'. unfold starts_after in A.
      destruct (token_map token) as [[r e]|] eqn:M; [ | discriminate ].
      apply Z.ltb_lt in A.
      pose proof (rows_after_first token rest r e t r' e' S M Ht M'). lia.
    + cbn [flat_map]. rewrite boundaries_app.
      rewrite IH by (eapply in_source_order_tail; exact S). lia.
Qed.

(** X8. For a stream in source order the slide index has a closed form: it
    is the number of boundary items (title, horizontal rule, qualifying
    heading) of the tokens that start at or before the cursor line, minus
    one, and 0 when there is none. *)
Theorem revealSlideIndex_in_source_order c lineCount tokens :
  in_source_order tokens ->
  revealSlideIndex c lineCount tokens
  = Z.max 0
      (boundaries (slideLevel (revealEditorLocation c lineCount tokens))
         (flat_map token_items (up_to c tokens)) - 1).
Proof.
  intros S. rewrite revealSlideIndex_index_at, index_at_sorted by exact S. lia.
Qed.

(** X9. Headings deeper than the resolved slide level never advance the
    slide index: for a stream with no horizontal rule token, at most one
    line-mapped front matter token and no heading that qualifies under the
    resolved slide level, the slide index is 0 at every cursor line. *)
Theorem deep_headings_ordinal_0 c lineCount tokens :
  (forall t, In t tokens -> is_hr t = false) ->
  (List.length (filter is_front_matter tokens) <= 1)%nat ->
  (forall t, In t tokens -> is_heading t = true ->
             number_le (getHeaderLevel (token_markup t))
               (slideLevel (revealEditorLocation c lineCount tokens)) = false) ->
  revealSlideIndex c lineCount tokens = 0.
Proof.
  intros Hhr Hfm Hdeep.
  set (sl := slideLevel (revealEditorLocation c lineCount tokens)) in *.
  assert (B : boundaries sl (flat_map token_items tokens)
              = Z.of_nat (List.length (filter is_front_matter tokens))).
  { clearbody sl. clear Hfm.
    induction tokens as [|token rest IH]; [ reflexivity | ].
    cbn [flat_map filter]. rewrite boundaries_app, IH.
    2:{ intros t Ht. apply Hhr. right. exact Ht. }
    2:{ intros t Ht. apply Hdeep. right. exact Ht. }
    assert (K : boundaries sl (token_items token)
                = if is_front_matter token then 1 else 0).
    { specialize (Hhr token (or_introl eq_refl)).
      specialize (Hdeep token (or_introl eq_refl)).
      unfold token_items, is_front_matter, is_hr, is_heading in *.
      destruct (token_map token) as [[r e]|]; [ | reflexivity ].
      destruct (String.eqb (token_type token) "front_matter"); [ reflexivity | ].
      cbn [negb andb] in Hhr. rewrite Hhr.
      destruct (String.eqb (token_type token) "heading_open"); [ | reflexivity ].
      unfold boundaries. cbn [filter]. unfold counts. cbn [type headingItem level].
      now rewrite (Hdeep eq_refl). }
    rewrite K. destruct (is_front_matter token); cbn [List.length]; lia. }
  pose proof (index_at_le sl c tokens (-1)) as L.
  pose proof (revealSlideIndex_index_at c lineCount tokens) as E. fold sl in E.
  lia.
Qed.

(** X10. The front matter lookup gives null or a truthy value, never
    undefined, 0, false or the empty string. *)
Theorem slideLevelFromYaml_null_or_truthy str :
  slideLevelFromYaml str = JsNull \/ truthy (slideLevelFromYaml str) = true.
Proof.
  unfold slideLevelFromYaml, slideLevelFromYaml_try.
  destruct (parseFrontMatterStr str) as [meta|e]; cbn; [ | now left ].
  destruct (truthy meta) eqn:T; [ | now left ].
  destruct (get_of_truthy meta "slide-level" T) as [top ->]. cbn.
  destruct (truthy top) eqn:Ttop; [ right; exact Ttop | ].
  destruct (get_of_truthy meta "format" T) as [format ->]. cbn.
  destruct (get_opt_returns format "revealjs") as [revealjs ->]. cbn.
  destruct (get_opt_returns revealjs "slide-level") as [nested ->]. cbn.
  unfold Js.or. destruct (truthy nested) eqn:N; [ right; exact N | now left ].
Qed.

(** *** What the inferred level is *)

Lemma inferred_candidate s :
  inferred s = if candidate s =? MAX_SAFE_INTEGER then 0 else candidate s.
Proof. reflexivity. Qed.

Lemma is_heading_inv token :
  is_heading token = true ->
  exists r e, token_map token = Some (r, e) /\ token_type token = "heading_open".
Proof.
  unfold is_heading. destruct (token_map token) as [[r e]|]; [ | discriminate ].
  intros H. apply String.eqb_eq in H. eauto.
Qed.

Lemma scan_token_heading_candidate c s token :
  is_heading token = true ->
  pendingAutoSlideLevel s = 0 ->
  0 < getHeaderLevel (token_markup token) ->
  candidate (scan_token c s token)
  = Z.min (autoSlideLevel s) (getHeaderLevel (token_markup token))
  /\ 0 <= pendingAutoSlideLevel (scan_token c s token).
Proof.
  intros Hh Hp Hl. destruct (is_heading_inv token Hh) as (r & e & M & T).
  destruct (scan_token_heading c s token r e M T) as (_ & Ha & Hp').
  unfold candidate. rewrite Hp', Ha.
  destruct (getHeaderLevel (token_markup token) <? autoSlideLevel s) eqn:L.
  - apply Z.ltb_lt in L.
    replace (0 <? getHeaderLevel (token_markup token)) with true
      by (symmetry; apply Z.ltb_lt; lia).
    lia.
  - apply Z.ltb_ge in L. cbn. lia.
Qed.

Lemma scan_token_other c s token :
  is_other token = true ->
  0 <= pendingAutoSlideLevel s ->
  autoSlideLevel (scan_token c s token) = candidate s
  /\ pendingAutoSlideLevel (scan_token c s token) = 0.
Proof.
  destruct s as [its ex au pe fo]. unfold is_other, scan_token, candidate. cbn.
  destruct (token_map token) as [[r e]|]; [ | discriminate ].
  intros H Hp. apply andb_true_iff in H as [H H3]. apply andb_true_iff in H as [H1 H2].
  apply negb_true_iff in H1, H2, H3. rewrite H1, H2, H3.
  destruct (negb fo && (c <? r)); cbn; destruct (0 <? pe) eqn:P; cbn; auto;
    apply Z.ltb_ge in P; split; auto; lia.
Qed.

Lemma scan_token_no_heading_clean c s token :
  is_heading token = false ->
  pendingAutoSlideLevel s = 0 ->
  autoSlideLevel (scan_token c s token) = autoSlideLevel s
  /\ pendingAutoSlideLevel (scan_token c s token) = 0.
Proof.
  destruct s as [its ex au pe fo]. unfold is_heading, scan_token. cbn.
  intros Hh ->.
  destruct (token_map token) as [[r e]|]; cbn; [ | auto ].
  destruct (negb fo && (c <? r)); cbn; token_kind token; cbn; auto; discriminate.
Qed.

Lemma is_other_not_heading token : is_other token = true -> is_heading token = false.
Proof.
  unfold is_other, is_heading. destruct (token_map token); [ | reflexivity ].
  intros H. apply andb_true_iff in H as [_ H]. now apply negb_true_iff in H.
Qed.

Lemma scan_tokens_candidate c n : forall tokens s,
  (List.length tokens <= n)%nat ->
  pendingAutoSlideLevel s = 0 ->
  headings_have_text tokens = true ->
  (forall t, In t tokens -> is_heading t = true ->
             0 < getHeaderLevel (token_markup t)) ->
  candidate (scan_tokens c tokens s)
  = fold_left Z.min (heading_levels tokens) (autoSlideLevel s).
Proof.
  induction n as [|n IH]; intros tokens s Hn Hp Ht Hl.
  - destruct tokens; [ | cbn in Hn; lia ].
    cbn. unfold candidate. now rewrite Hp.
  - destruct tokens as [|token rest]; [ cbn; unfold candidate; now rewrite Hp | ].
    cbn [List.length] in Hn. cbn [headings_have_text] in Ht.
    unfold heading_levels. cbn [filter].
    destruct (is_heading token) eqn:Hh.
    + cbn [map fold_left].
      assert (Hpos : 0 < getHeaderLevel (token_markup token))
        by (apply Hl; [ left; reflexivity | exact Hh ]).
      destruct (scan_token_heading_candidate c s token Hh Hp Hpos) as [Hc Hp1].
      destruct rest as [|next rest'].
      * cbn. exact Hc.
      * apply andb_true_iff in Ht as [Ho Ht].
        pose proof (is_other_not_heading next Ho) as Hnh.
        cbn [headings_have_text] in Ht. rewrite Hnh in Ht.
        cbn [filter]. rewrite Hnh.
        destruct (scan_token_other c (scan_token c s token) next Ho Hp1) as [Ha2 Hp2].
        unfold scan_tokens. cbn [fold_left].
        fold (scan_tokens c rest' (scan_token c (scan_token c s token) next)).
        rewrite (IH rest' _); try assumption.
        -- unfold heading_levels. now rewrite Ha2, Hc.
        -- cbn [List.length] in Hn. lia.
        -- intros t Hin. apply Hl. right. right. exact Hin.
    + destruct (scan_token_no_heading_clean c s token Hh Hp) as [Ha1 Hp1].
      unfold scan_tokens. cbn [fold_left].
      fold (scan_tokens c rest (scan_token c s token)).
      rewrite (IH rest _); try assumption.
      * unfold heading_levels. now rewrite Ha1.
      * lia.
      * intros t Hin. apply Hl. right. exact Hin.
Qed.

Lemma scan_tokens_explicit_none c tokens : forall s,
  explicitSlideLevel s = JsNull ->
  (forall t, In t tokens -> is_front_matter t = true ->
             slideLevelFromYaml (token_markup t) = JsNull) ->
  explicitSlideLevel (scan_tokens c tokens s) = JsNull.
Proof.
  induction tokens as [|token rest IH]; intros s Hs H; [ exact Hs | ].
  unfold scan_tokens in *. cbn [fold_left]. apply IH.
  - rewrite scan_token_explicit. destruct (is_front_matter token) eqn:F; [ | exact Hs ].
    apply H; [ left; reflexivity | exact F ].
  - intros t Ht. apply H. right. exact Ht.
Qed.

(** X11. On a stream where every line-mapped heading is directly followed
    by a token that is neither front matter, horizontal rule nor heading
    (its text, as the markdown parser emits it) or ends the stream, where the
    heading levels are positive and no front matter gives a slide level, the
    resolved slide level is the shallowest heading level of the stream, and
    0 when there is no heading. *)
Theorem shallowest_heading_is_inferred c lineCount tokens :
  headings_have_text tokens = true ->
  (forall t, In t tokens -> is_heading t = true ->
             0 < getHeaderLevel (token_markup t)) ->
  (forall t, In t tokens -> is_front_matter t = true ->
             slideLevelFromYaml (token_markup t) = JsNull) ->
  slideLevel (revealEditorLocation c lineCount tokens)
  = JsNumber (if shallowest (heading_levels tokens) =? MAX_SAFE_INTEGER
              then 0 else shallowest (heading_levels tokens)).
Proof.
  intros Ht Hl Hfm. unfold revealEditorLocation.
  rewrite scan_finish_inferred.
  rewrite scan_tokens_explicit_none by (reflexivity || exact Hfm).
  rewrite inferred_candidate.
  rewrite (scan_tokens_candidate c (List.length tokens))
    by (reflexivity || assumption || lia).
  reflexivity.
Qed.

Lemma heading_level_of_app seen more n :
  heading_level_of seen n -> heading_level_of (seen ++ more) n.
Proof.
  intros (t & Hin & H). exists t. split; [ apply in_or_app; now left | exact H ].
Qed.

Lemma front_matter_level_of_app seen more v :
  front_matter_level_of seen v -> front_matter_level_of (seen ++ more) v.
Proof.
  intros (t & Hin & H). exists t. split; [ apply in_or_app; now left | exact H ].
Qed.

Lemma provenance_weaken seen more s :
  provenance seen s -> provenance (seen ++ more) s.
Proof.
  intros (He & Ha & Hp). repeat split.
  - destruct He as [He | He]; [ now left | right; now apply front_matter_level_of_app ].
  - destruct Ha as [Ha | [Ha1 Ha2]];
      [ now left | right; split; [ exact Ha1 | now apply heading_level_of_app ] ].
  - destruct Hp as [Hp | Hp]; [ now left | right; now apply heading_level_of_app ].
Qed.

Lemma scan_token_provenance c seen s token :
  provenance seen s -> provenance (seen ++ [token]) (scan_token c s token).
Proof.
  intros P. pose proof (provenance_weaken seen [token] s P) as (He & Ha & Hp).
  assert (Hin : In token (seen ++ [token])) by (apply in_or_app; right; now left).
  destruct (is_front_matter token) eqn:Ffm;
    [ | destruct (is_heading token) eqn:Fh ].
  - (* front matter *)
    assert (E : explicitSlideLevel (scan_token c s token)
                = slideLevelFromYaml (token_markup token))
      by (rewrite scan_token_explicit; now rewrite Ffm).
    assert (Hnh : is_heading token = false).
    { unfold is_front_matter, is_heading in *.
      destruct (token_map token); [ | reflexivity ].
      apply String.eqb_eq in Ffm. rewrite Ffm. reflexivity. }
    assert (Q : autoSlideLevel (scan_token c s token) = autoSlideLevel s
                /\ pendingAutoSlideLevel (scan_token c s token)
                   = pendingAutoSlideLevel s).
    { clear - Ffm. destruct s as [its ex au pe fo].
      unfold is_front_matter, scan_token in *. cbn.
      destruct (token_map token) as [[r e]|]; [ | discriminate ].
      rewrite Ffm. destruct (negb fo && (c <? r)); cbn; auto. }
    destruct Q as [Qa Qp]. unfold provenance. rewrite E, Qa, Qp.
    split; [ right; exists token; auto | split; assumption ].
  - (* heading *)
    destruct (is_heading_inv token Fh) as (r & e & M & T).
    destruct (scan_token_heading c s token r e M T) as (Qe & Qa & Qp).
    unfold provenance. rewrite Qe, Qa, Qp.
    split; [ exact He | split; [ exact Ha | ] ].
    destruct (_ <? _); [ right; exists token; auto | now left ].
  - (* horizontal rule, other token, token without a map *)
    assert (Qe : explicitSlideLevel (scan_token c s token) = explicitSlideLevel s)
      by (rewrite scan_token_explicit; now rewrite Ffm).
    assert (Q : (autoSlideLevel (scan_token c s token) = autoSlideLevel s
                 /\ (pendingAutoSlideLevel (scan_token c s token)
                     = pendingAutoSlideLevel s
                     \/ pendingAutoSlideLevel (scan_token c s token) = 0))
                \/ (0 < pendingAutoSlideLevel s
                    /\ autoSlideLevel (scan_token c s token)
                       = pendingAutoSlideLevel s
                    /\ pendingAutoSlideLevel (scan_token c s token) = 0)).
    { clear - Ffm Fh. destruct s as [its ex au pe fo].
      unfold is_front_matter, is_heading, scan_token in *. cbn.
      destruct (token_map token) as [[r e]|]; [ | auto ].
      rewrite Ffm, Fh.
      destruct (negb fo && (c <? r)); cbn;
        destruct (String.eqb (token_type token) "hr"); cbn; auto;
        destruct (0 <? pe) eqn:P; cbn; auto;
        right; apply Z.ltb_lt in P; auto. }
    unfold provenance. rewrite Qe.
    destruct Q as [[Qa [Qp | Qp]] | (Pos & Qa & Qp)]; rewrite Qa, Qp.
    + auto.
    + auto.
    + split; [ exact He | split; [ | now left ] ].
      right. split; [ exact Pos | ].
      destruct Hp as [Hp | Hp]; [ lia | exact Hp ].
Qed.

Lemma scan_tokens_provenance c tokens : forall seen s,
  provenance seen s -> provenance (seen ++ tokens) (scan_tokens c tokens s).
Proof.
  induction tokens as [|token rest IH]; intros seen s P.
  - rewrite app_nil_r. exact P.
  - unfold scan_tokens in *. cbn [fold_left].
    change (token :: rest) with ([token] ++ rest). rewrite app_assoc.
    apply IH, scan_token_provenance, P.
Qed.

(** X12. Where the resolved slide level comes from. It is a truthy value
    that the front matter lookup gives for a line-mapped front matter token
    of the stream, or it is 0, or it is the positive level of a line-mapped
    heading of the stream. *)
Theorem slideLevel_provenance c lineCount tokens :
  (truthy (slideLevel (revealEditorLocation c lineCount tokens)) = true
   /\ front_matter_level_of tokens
        (slideLevel (revealEditorLocation c lineCount tokens)))
  \/ slideLevel (revealEditorLocation c lineCount tokens) = JsNumber 0
  \/ (exists n,
        slideLevel (revealEditorLocation c lineCount tokens) = JsNumber n
        /\ 0 < n /\ heading_level_of tokens n).
Proof.
  assert (P : provenance ([] ++ tokens) (scan_tokens c tokens scan_start)).
  { apply scan_tokens_provenance. unfold provenance. cbn. auto. }
  cbn [app] in P. destruct P as (He & Ha & Hp).
  unfold revealEditorLocation. rewrite scan_finish_inferred.
  set (s := scan_tokens c tokens scan_start) in *.
  unfold Js.or. destruct (truthy (explicitSlideLevel s)) eqn:T.
  - left. split; [ exact T | ].
    destruct He as [He | He]; [ rewrite He in T; discriminate | exact He ].
  - right. rewrite inferred_candidate.
    destruct (candidate s =? MAX_SAFE_INTEGER) eqn:X; [ now left | ].
    apply Z.eqb_neq in X. unfold candidate in *.
    destruct (0 <? pendingAutoSlideLevel s) eqn:Q.
    + apply Z.ltb_lt in Q. right. exists (pendingAutoSlideLevel s).
      split; [ reflexivity | split; [ exact Q | ] ].
      destruct Hp as [Hp | Hp]; [ lia | exact Hp ].
    + destruct Ha as [Ha | [Ha1 Ha2]]; [ contradiction | ].
      right. exists (autoSlideLevel s). auto.
Qed.

(** *** The walk under two slide levels *)

Lemma slideIndexAtCursor_level_mono n1 n2 l : forall i1 i2,
  n1 <= n2 -> i1 <= i2 ->
  match slideIndexAtCursor (JsNumber n1) l i1,
        slideIndexAtCursor (JsNumber n2) l i2 with
  | Some a, Some b => a <= b
  | None, None => True
  | _, _ => False
  end.
Proof.
  induction l as [|item l IH]; intros i1 i2 Hn Hi; [ exact I | ].
  cbn [slideIndexAtCursor]. destruct (type item).
  - apply IH; lia.
  - unfold number_le. cbn [ToNumber].
    destruct (level item <=? n1) eqn:A, (level item <=? n2) eqn:B;
      rewrite ?Z.leb_le, ?Z.leb_gt in *; first [ apply IH; lia | lia ].
  - apply IH; lia.
  - lia.
Qed.

(** X17. Walking the items of one location with a larger numeric slide
    level gives the same slide index or a later one: a heading that counts
    under a slide level counts under every deeper one. *)
Theorem deeper_slide_level_later_index c lineCount tokens n1 n2 :
  n1 <= n2 ->
  exists i1 i2,
    slideIndexAtCursor (JsNumber n1)
      (items (revealEditorLocation c lineCount tokens)) (-1) = Some i1
    /\ slideIndexAtCursor (JsNumber n2)
         (items (revealEditorLocation c lineCount tokens)) (-1) = Some i2
    /\ i1 <= i2.
Proof.
  intros H.
  pose proof (slideIndexAtCursor_level_mono n1 n2
                (items (revealEditorLocation c lineCount tokens)) (-1) (-1) H
                (Z.le_refl _)) as M.
  rewrite revealEditorLocation_items in *.
  rewrite !slideIndexAtCursor_items in *.
  eauto.
Qed.

(** *** The items of a stream in source order *)

Lemma all_after_up_to c tokens :
  (forall t r e, In t tokens -> token_map t = Some (r, e) -> c < r) ->
  flat_map token_items (up_to c tokens) = []
  /\ flat_map token_items (filter (starts_after c) tokens)
     = flat_map token_items tokens.
Proof.
  induction tokens as [|token rest IH]; intros H; [ split; reflexivity | ].
  destruct IH as [IH1 IH2];
    [ intros t r e Ht; apply H; right; exact Ht | ].
  change (up_to c (token :: rest))
    with (if negb (starts_after c token)
          then token :: up_to c rest else up_to c rest).
  cbn [filter].
  destruct (token_map token) as [[r e]|] eqn:M.
  - assert (A : starts_after c token = true).
    { unfold starts_after. rewrite M. apply Z.ltb_lt.
      apply (H token r e); [ left; reflexivity | exact M ]. }
    rewrite A. cbn [negb flat_map]. now rewrite IH1, IH2.
  - assert (A : starts_after c token = false)
      by (unfold starts_after; now rewrite M).
    rewrite A. cbn [negb flat_map].
    rewrite (token_items_unmapped token M). cbn [app]. now rewrite IH1, IH2.
Qed.

Lemma items_from_sorted c tokens :
  in_source_order tokens ->
  items_from c false tokens
  = flat_map token_items (up_to c tokens)
      ++ (if existsb (starts_after c) tokens then [cursorItem c] else [])
      ++ flat_map token_items (filter (starts_after c) tokens).
Proof.
  induction tokens as [|token rest IH]; intros S; [ reflexivity | ].
  cbn [items_from existsb negb andb].
  change (up_to c (token :: rest))
    with (if negb (starts_after c token)
          then token :: up_to c rest else up_to c rest).
  cbn [filter].
  destruct (starts_after c token) eqn:A; cbn [negb orb].
  - destruct (all_after_up_to c rest) as [U F].
    { intros t r' e' Ht M'. unfold starts_after in A.
      destruct (token_map token) as [[r e]|] eqn:M; [ | discriminate ].
      apply Z.ltb_lt in A.
      pose proof (rows_after_first token rest r e t r' e' S M Ht M'). lia. }
    rewrite U, items_from_true. cbn [app flat_map]. now rewrite F.
  - cbn [flat_map]. rewrite IH by (eapply in_source_order_tail; exact S).
    now rewrite <- app_assoc.
Qed.

(** X18. For a stream in source order the cursor item sits where the cursor
    line falls: the items are those of the tokens that start at or before
    the cursor line, then the cursor item, then those of the tokens that
    start after it. The cursor item's row is the cursor line when some token
    starts after it, and the document's last line otherwise. *)
Theorem items_in_source_order c lineCount tokens :
  in_source_order tokens ->
  items (revealEditorLocation c lineCount tokens)
  = flat_map token_items (up_to c tokens)
      ++ cursorItem (if existsb (starts_after c) tokens then c else lineCount - 1)
      :: flat_map token_items (filter (starts_after c) tokens).
Proof.
  intros S. rewrite revealEditorLocation_items, items_from_sorted by exact S.
  destruct (existsb (starts_after c) tokens) eqn:X.
  - rewrite app_nil_r. reflexivity.
  - cbn [app].
    assert (F : filter (starts_after c) tokens = []).
    { clear - X. induction tokens as [|t rest IH]; [ reflexivity | ].
      cbn in *. apply orb_false_iff in X as [-> X]. now apply IH. }
    rewrite F. cbn. now rewrite app_nil_r.
Qed.
End Reveal.

(** ** The claims at sample inputs *)

Lemma scenario_level_0_ordinal_0_witness :
  decoded plain_front_matter "---" = Normal plain_front_matter
  /\ lookup "slide-level" [("title", JsString "Talk")] = JsUndefined
  /\ lookup "format" [("title", JsString "Talk")] = JsUndefined
  /\ marker_length "#" = 1
  /\ marker_length "##" = 2
  /\ slideLevel
       (revealEditorLocation (decoded plain_front_matter) marker_length
          6 12 scenario_tokens) = JsNumber 0
  /\ revealSlideIndex (decoded plain_front_matter) marker_length not_a_number
       6 12 scenario_tokens = 0.
Proof.
  do 5 (split; [ reflexivity | ]).
  exact (scenario_level_0_ordinal_0 (decoded plain_front_matter) marker_length
           not_a_number 12 "---" "#" "##" "---" 1 3 6 10
           [("title", JsString "Talk")]
           eq_refl eq_refl eq_refl eq_refl eq_refl).
Defined.

(** On the scenario's stream the resolver does not infer 2 and the locator
    does not return 2. *)
Lemma scenario_not_level_2_ordinal_2 :
  slideLevel
    (revealEditorLocation (decoded plain_front_matter) marker_length
       6 12 scenario_tokens) <> JsNumber 2
  /\ revealSlideIndex (decoded plain_front_matter) marker_length not_a_number
       6 12 scenario_tokens <> 2.
Proof. split; vm_compute; discriminate. Qed.

Lemma deeper_heading_drops_pending_witness :
  token_map (token_at "heading_open" 5 "##") = Some (5, 6)
  /\ token_type (token_at "heading_open" 5 "##") = "heading_open"
  /\ autoSlideLevel
       (scan_tokens (decoded plain_front_matter) marker_length 0
          accepted_2_pending_1 scan_start)
     <= marker_length (token_markup (token_at "heading_open" 5 "##"))
  /\ autoSlideLevel
       (scan_tokens (decoded plain_front_matter) marker_length 0
          (accepted_2_pending_1 ++ [token_at "heading_open" 5 "##"]) scan_start)
     = autoSlideLevel
         (scan_tokens (decoded plain_front_matter) marker_length 0
            accepted_2_pending_1 scan_start)
  /\ pendingAutoSlideLevel
       (scan_tokens (decoded plain_front_matter) marker_length 0
          (accepted_2_pending_1 ++ [token_at "heading_open" 5 "##"]) scan_start)
     = 0.
Proof.
  split; [ reflexivity | ]. split; [ reflexivity | ].
  split; [ vm_compute; discriminate | ].
  pose proof (deeper_heading_drops_pending (decoded plain_front_matter)
                marker_length 0 accepted_2_pending_1
                (token_at "heading_open" 5 "##") 5 6 eq_refl eq_refl) as H.
  assert (L : autoSlideLevel
                (scan_tokens (decoded plain_front_matter) marker_length 0
                   accepted_2_pending_1 scan_start)
              <= marker_length (token_markup (token_at "heading_open" 5 "##")))
    by (vm_compute; discriminate).
  destruct (H L) as (Ha & Hp & _). split; [ exact Ha | exact Hp ].
Defined.

(** After a level 2 heading with its text has made 2 the accepted level and a
    level 1 heading is pending, a level 2 heading (not shallower than the
    accepted level) does not commit the pending 1: the accepted level is
    still 2, and so is the resolved slide level. A level 1 heading right
    after it is pending again, with no horizontal rule in between. *)
Lemma deeper_heading_does_not_commit :
  pendingAutoSlideLevel
    (scan_tokens (decoded plain_front_matter) marker_length 0
       accepted_2_pending_1 scan_start) = 1
  /\ autoSlideLevel
       (scan_tokens (decoded plain_front_matter) marker_length 0
          accepted_2_pending_1 scan_start)
     <= marker_length (token_markup (token_at "heading_open" 5 "##"))
  /\ autoSlideLevel
       (scan_tokens (decoded plain_front_matter) marker_length 0
          (accepted_2_pending_1 ++ [token_at "heading_open" 5 "##"]) scan_start)
     <> 1
  /\ slideLevel
       (revealEditorLocation (decoded plain_front_matter) marker_length 0 8
          (accepted_2_pending_1 ++ [token_at "heading_open" 5 "##"]))
     <> JsNumber 1
  /\ pendingAutoSlideLevel
       (scan_tokens (decoded plain_front_matter) marker_length 0
          (accepted_2_pending_1
             ++ [token_at "heading_open" 5 "##"; token_at "heading_open" 6 "#"])
          scan_start)
     = 1.
Proof. repeat split; vm_compute; discriminate || reflexivity. Qed.



Lemma revealSlideIndex_monotone_witness :
  3 <= 6
  /\ revealSlideIndex (decoded plain_front_matter) marker_length not_a_number
       3 12 scenario_tokens
     <= revealSlideIndex (decoded plain_front_matter) marker_length not_a_number
          6 12 scenario_tokens.
Proof.
  split; [ lia | ].
  apply (revealSlideIndex_monotone (decoded plain_front_matter) marker_length
           not_a_number 3 6 12 scenario_tokens).
  lia.
Defined.



Lemma resolver_never_raises_witness :
  (forall t, In t titled_section -> is_front_matter t = true ->
             exists e, undecodable (token_markup t) = Throw e)
  /\ slideLevel (revealEditorLocation undecodable marker_length 0 8 titled_section)
     = JsNumber 1
  /\ 0 <= inferred (scan_tokens undecodable marker_length 0 titled_section scan_start).
Proof.
  assert (A : forall t, In t titled_section -> is_front_matter t = true ->
                        exists e, undecodable (token_markup t) = Throw e).
  { intros t _ _. exists (JsString "YAMLException"). reflexivity. }
  split; [ exact A | ].
  destruct (resolver_never_raises undecodable marker_length 0 8 titled_section A)
    as (_ & _ & _ & Hl & Hn).
  split; [ exact Hl | exact Hn ].
Defined.





(** ** The further properties at sample inputs *)

Lemma cursor_before_all_items_witness :
  (forall t, In t [closing_token "paragraph_close"] ->
             starts_after 1 t = false /\ token_items marker_length t = [])
  /\ starts_after 1 (token_at "heading_open" 3 "#") = true
  /\ items
       (revealEditorLocation (decoded plain_front_matter) marker_length 1 8
          ([closing_token "paragraph_close"]
             ++ token_at "heading_open" 3 "#" :: [token_at "inline" 3 ""]))
     = cursorItem 1
         :: flat_map (token_items marker_length)
              (token_at "heading_open" 3 "#" :: [token_at "inline" 3 ""])
  /\ revealSlideIndex (decoded plain_front_matter) marker_length not_a_number 1 8
       ([closing_token "paragraph_close"]
          ++ token_at "heading_open" 3 "#" :: [token_at "inline" 3 ""])
     = 0.
Proof.
  assert (A : forall t, In t [closing_token "paragraph_close"] ->
                        starts_after 1 t = false
                        /\ token_items marker_length t = []).
  { intros t [<- | []]. split; reflexivity. }
  split; [ exact A | ]. split; [ reflexivity | ].
  exact (cursor_before_all_items (decoded plain_front_matter) marker_length
           not_a_number 1 8 [closing_token "paragraph_close"]
           (token_at "heading_open" 3 "#") [token_at "inline" 3 ""] A eq_refl).
Defined.

Lemma cursor_after_all_items_witness :
  (forall t, In t titled_section -> starts_after 7 t = false)
  /\ items
       (revealEditorLocation (decoded plain_front_matter) marker_length 7 9
          titled_section)
     = flat_map (token_items marker_length) titled_section ++ [cursorItem (9 - 1)]
  /\ revealSlideIndex (decoded plain_front_matter) marker_length not_a_number 7 9
       titled_section
     = Z.max 0
         (boundaries not_a_number
            (slideLevel
               (revealEditorLocation (decoded plain_front_matter) marker_length
                  7 9 titled_section))
            (flat_map (token_items marker_length) titled_section) - 1).
Proof.
  assert (A : forall t, In t titled_section -> starts_after 7 t = false).
  { intros t [<- | [<- | [<- | []]]]; reflexivity. }
  split; [ exact A | ].
  exact (cursor_after_all_items (decoded plain_front_matter) marker_length
           not_a_number 7 9 titled_section A).
Defined.

Lemma same_side_same_index_witness :
  (forall t r e, In t parsed_stream -> token_map t = Some (r, e) ->
                 (5 < r <-> 7 < r))
  /\ revealSlideIndex (decoded plain_front_matter) marker_length not_a_number
       5 14 parsed_stream
     = revealSlideIndex (decoded plain_front_matter) marker_length not_a_number
         7 14 parsed_stream.
Proof.
  assert (A : forall t r e, In t parsed_stream -> token_map t = Some (r, e) ->
                            (5 < r <-> 7 < r)).
  { intros t r e Hin M.
    repeat (destruct Hin as [<- | Hin];
            [ cbn in M; try discriminate; inversion M; subst; lia | ]).
    destruct Hin. }
  split; [ exact A | ].
  exact (same_side_same_index (decoded plain_front_matter) marker_length
           not_a_number 5 7 14 parsed_stream A).
Defined.

Lemma revealSlideIndex_in_source_order_witness :
  in_source_order parsed_stream
  /\ revealSlideIndex (decoded plain_front_matter) marker_length not_a_number
       9 14 parsed_stream
     = Z.max 0
         (boundaries not_a_number
            (slideLevel
               (revealEditorLocation (decoded plain_front_matter) marker_length
                  9 14 parsed_stream))
            (flat_map (token_items marker_length) (up_to 9 parsed_stream)) - 1).
Proof.
  assert (A : in_source_order parsed_stream).
  { unfold in_source_order. cbn.
    repeat (apply SSorted_cons; [ | repeat (apply Forall_cons; [ lia | ]);
                                    apply Forall_nil ]).
    apply SSorted_nil. }
  split; [ exact A | ].
  exact (revealSlideIndex_in_source_order (decoded plain_front_matter)
           marker_length not_a_number 9 14 parsed_stream A).
Defined.

Lemma deep_headings_ordinal_0_witness :
  (forall t, In t deep_sections -> is_hr t = false)
  /\ (List.length (filter is_front_matter deep_sections) <= 1)%nat
  /\ (forall t, In t deep_sections -> is_heading t = true ->
                number_le not_a_number (marker_length (token_markup t))
                  (slideLevel
                     (revealEditorLocation (decoded (top_slide_level 1))
                        marker_length 7 9 deep_sections)) = false)
  /\ revealSlideIndex (decoded (top_slide_level 1)) marker_length not_a_number
       7 9 deep_sections = 0.
Proof.
  assert (A : forall t, In t deep_sections -> is_hr t = false).
  { intros t Hin.
    repeat (destruct Hin as [<- | Hin]; [ reflexivity | ]). destruct Hin. }
  assert (B : (List.length (filter is_front_matter deep_sections) <= 1)%nat)
    by (cbn; lia).
  assert (C : forall t, In t deep_sections -> is_heading t = true ->
                number_le not_a_number (marker_length (token_markup t))
                  (slideLevel
                     (revealEditorLocation (decoded (top_slide_level 1))
                        marker_length 7 9 deep_sections)) = false).
  { intros t Hin Hh.
    repeat (destruct Hin as [<- | Hin];
            [ first [ reflexivity | discriminate Hh ] | ]).
    destruct Hin. }
  split; [ exact A | ]. split; [ exact B | ]. split; [ exact C | ].
  exact (deep_headings_ordinal_0 (decoded (top_slide_level 1)) marker_length
           not_a_number 7 9 deep_sections A B C).
Defined.

Lemma shallowest_heading_is_inferred_witness :
  headings_have_text parsed_stream = true
  /\ (forall t, In t parsed_stream -> is_heading t = true ->
                0 < marker_length (token_markup t))
  /\ (forall t, In t parsed_stream -> is_front_matter t = true ->
                slideLevelFromYaml (decoded plain_front_matter) (token_markup t)
                = JsNull)
  /\ slideLevel
       (revealEditorLocation (decoded plain_front_matter) marker_length 9 14
          parsed_stream)
     = JsNumber 1.
Proof.
  assert (A : forall t, In t parsed_stream -> is_heading t = true ->
                        0 < marker_length (token_markup t)).
  { intros t Hin Hh.
    repeat (destruct Hin as [<- | Hin];
            [ first [ reflexivity | discriminate Hh ] | ]).
    destruct Hin. }
  assert (B : forall t, In t parsed_stream -> is_front_matter t = true ->
                slideLevelFromYaml (decoded plain_front_matter) (token_markup t)
                = JsNull).
  { intros t _ _. reflexivity. }
  split; [ reflexivity | ]. split; [ exact A | ]. split; [ exact B | ].
  exact (shallowest_heading_is_inferred (decoded plain_front_matter) marker_length
           9 14 parsed_stream eq_refl A B).
Defined.

Lemma deeper_slide_level_later_index_witness :
  1 <= 2
  /\ exists i1 i2,
       slideIndexAtCursor not_a_number (JsNumber 1)
         (items
            (revealEditorLocation (decoded plain_front_matter) marker_length
               13 14 parsed_stream)) (-1) = Some i1
       /\ slideIndexAtCursor not_a_number (JsNumber 2)
            (items
               (revealEditorLocation (decoded plain_front_matter) marker_length
                  13 14 parsed_stream)) (-1) = Some i2
       /\ i1 <= i2.
Proof.
  split; [ lia | ].
  apply (deeper_slide_level_later_index (decoded plain_front_matter) marker_length
           not_a_number 13 14 parsed_stream 1 2).
  lia.
Defined.

Lemma items_in_source_order_witness :
  in_source_order parsed_stream
  /\ items
       (revealEditorLocation (decoded plain_front_matter) marker_length 9 14
          parsed_stream)
     = flat_map (token_items marker_length) (up_to 9 parsed_stream)
         ++ cursorItem 9
         :: flat_map (token_items marker_length)
              (filter (starts_after 9) parsed_stream).
Proof.
  assert (A : in_source_order parsed_stream).
  { unfold in_source_order. cbn.
    repeat (apply SSorted_cons; [ | repeat (apply Forall_cons; [ lia | ]);
                                    apply Forall_nil ]).
    apply SSorted_nil. }
  split; [ exact A | ].
  exact (items_in_source_order (decoded plain_front_matter) marker_length
           9 14 parsed_stream A).
Defined.

(** ** The listener's slide index *)

Section Preview.

Variable other : JsValue -> JsValue -> JsValue.

Lemma is_literal_eq v s : Webview.is_literal v s = true -> v = JsString s.
Proof.
  destruct v; cbn; try discriminate. intros H. apply String.eqb_eq in H. now subst.
Qed.

Lemma kind_reads data k :
  Webview.kind data = Normal k -> forall key, exists v, get data key = Normal v.
Proof.
  unfold Webview.kind. destruct data; cbn; try discriminate; eauto.
Qed.

(** What one event does to [slideIndex]: nothing, unless it is a
    setSlideIndex message. *)
Lemma on_message_slideIndex s data s' calls :
  Webview.on_message other s data = Normal (s', calls) ->
  (Webview.kind data <> Normal (JsString "setSlideIndex") /\ s' = s)
  \/ (Webview.kind data = Normal (JsString "setSlideIndex")
      /\ calls = []
      /\ exists index, get data "index" = Normal index
                       /\ s' = Js.or index (JsNumber 0)).
Proof.
  unfold Webview.on_message.
  destruct (Webview.kind data) as [k|e] eqn:K; cbn; [ | discriminate ].
  destruct (Webview.is_literal k "setSlideIndex") eqn:L.
  - apply is_literal_eq in L. subst k. cbn.
    destruct (kind_reads data _ K "index") as [index I]. rewrite I. cbn.
    intros H. inversion H; subst. right. repeat split. exists index. auto.
  - assert (N : Normal k <> Normal (JsString "setSlideIndex")).
    { intros E. inversion E; subst. cbn in L. discriminate. }
    intros H. left. split; [ exact N | ].
    repeat match type of H with
           | (if ?b then _ else _) = _ => destruct b
           | Js.bind ?c _ = _ => destruct c; cbn in H; try discriminate
           end;
      try discriminate; inversion H; reflexivity.
Qed.

Lemma listen_cons s data rest :
  fst (Webview.listen other s (data :: rest))
  = fst (Webview.listen other
           (match Webview.on_message other s data with
            | Normal (s', _) => s'
            | Throw _ => s
            end) rest).
Proof.
  cbn [Webview.listen].
  destruct (Webview.on_message other s data) as [[s' calls]|e]; [ | reflexivity ].
  destruct (Webview.listen other s' rest). reflexivity.
Qed.

Lemma listen_no_set messages : forall s,
  (forall m, In m messages ->
             Webview.kind m <> Normal (JsString "setSlideIndex")) ->
  fst (Webview.listen other s messages) = s.
Proof.
  induction messages as [|data rest IH]; intros s H; [ reflexivity | ].
  rewrite listen_cons.
  assert (Hr : forall m, In m rest ->
                 Webview.kind m <> Normal (JsString "setSlideIndex"))
    by (intros m Hm; apply H; right; exact Hm).
  destruct (Webview.on_message other s data) as [[s' calls]|e] eqn:O;
    [ | now apply IH ].
  destruct (on_message_slideIndex s data s' calls O) as [[_ ->] | [K _]].
  - now apply IH.
  - exfalso. apply (H data); [ left; reflexivity | exact K ].
Qed.

Lemma listen_app s before after :
  fst (Webview.listen other s (before ++ after))
  = fst (Webview.listen other (fst (Webview.listen other s before)) after).
Proof.
  revert s. induction before as [|data rest IH]; intros s; [ reflexivity | ].
  cbn [app]. rewrite !listen_cons. apply IH.
Qed.

(** X13. Over a session of messages the listener's slide index is what the
    last setSlideIndex message carries in [index], or 0 if that is falsy;
    messages of every other kind, handled or throwing, leave it alone. With
    no setSlideIndex message at all it keeps its initial value. *)
Theorem slideIndex_is_last_set s before m after :
  Webview.kind m = Normal (JsString "setSlideIndex") ->
  (forall a, In a after ->
             Webview.kind a <> Normal (JsString "setSlideIndex")) ->
  (exists index,
     get m "index" = Normal index
     /\ fst (Webview.listen other s (before ++ m :: after))
        = Js.or index (JsNumber 0))
  /\ fst (Webview.listen other s after) = s.
Proof.
  intros K Hafter. split; [ | now apply listen_no_set ].
  destruct (kind_reads m _ K "index") as [index I].
  exists index. split; [ exact I | ].
  rewrite listen_app, listen_cons.
  assert (O : Webview.on_message other
                (fst (Webview.listen other s before)) m
              = Normal (Js.or index (JsNumber 0), [])).
  { unfold Webview.on_message. rewrite K. cbn. rewrite I. reflexivity. }
  rewrite O. now apply listen_no_set.
Qed.

(** X14. Whatever the messages of a session are, the listener's slide index
    is a truthy value or the number 0: it is never undefined, null, false
    or the empty string when reveal-init reads the slide at it. *)
Theorem slideIndex_truthy_or_0 messages :
  truthy (fst (Webview.listen other Webview.slideIndex_start messages)) = true
  \/ fst (Webview.listen other Webview.slideIndex_start messages) = JsNumber 0.
Proof.
  assert (G : forall msgs s,
             truthy s = true \/ s = JsNumber 0 ->
             truthy (fst (Webview.listen other s msgs)) = true
             \/ fst (Webview.listen other s msgs) = JsNumber 0).
  { induction msgs as [|data rest IH]; intros s Hs; [ exact Hs | ].
    rewrite listen_cons. apply IH.
    destruct (Webview.on_message other s data) as [[s' calls]|e] eqn:O;
      [ | exact Hs ].
    destruct (on_message_slideIndex s data s' calls O)
      as [[_ ->] | (_ & _ & index & _ & ->)]; [ exact Hs | ].
    unfold Js.or. destruct (truthy index) eqn:T; [ now left | now right ]. }
  apply G. now right.
Qed.

(** X15. A setSlideIndex message with an integer index followed by the
    deck's reveal-init makes the listener post the slide at that index and
    then reveal-ready. When the index is outside the deck (negative, or the
    deck is too short) or the slide there is falsy, reveal-ready alone is
    posted. The slide index is the integer that was set, 0 included. *)
Theorem slide_at_index_is_posted s set init n d slides :
  Webview.kind set = Normal (JsString "setSlideIndex") ->
  get set "index" = Normal (JsNumber n) ->
  Webview.kind init = Normal (JsString "reveal-init") ->
  get init "data" = Normal d ->
  get d "slides" = Normal (JsArray slides) ->
  Webview.listen other s [set; init]
  = (JsNumber n,
     (if (0 <=? n) && (n <? Z.of_nat (List.length slides))
         && truthy (nth (Z.to_nat n) slides JsUndefined)
      then [Webview.reveal_slide (nth (Z.to_nat n) slides JsUndefined)]
      else [])
     ++ [Webview.reveal_ready]).
Proof.
  intros Kset Iset Kinit Dinit Sinit.
  assert (O1 : Webview.on_message other s set = Normal (JsNumber n, [])).
  { unfold Webview.on_message. rewrite Kset. cbn. rewrite Iset. cbn.
    unfold Js.or. cbn. destruct (n =? 0) eqn:Z; cbn; [ | reflexivity ].
    apply Z.eqb_eq in Z. now subst. }
  cbn [Webview.listen]. rewrite O1.
  unfold Webview.on_message. rewrite Kinit. cbn. rewrite Dinit. cbn.
  rewrite Sinit. cbn.
  destruct ((0 <=? n) && (n <? Z.of_nat (List.length slides))); cbn;
    [ destruct (truthy (nth (Z.to_nat n) slides JsUndefined)) | ]; reflexivity.
Qed.

Lemma on_message_posts s data s' calls :
  Webview.on_message other s data = Normal (s', calls) ->
  Forall Webview.posts_slide_or_ready calls.
Proof.
  unfold Webview.on_message.
  destruct (Webview.kind data) as [k|e]; cbn; [ | discriminate ].
  intros H.
  repeat match type of H with
         | (if Webview.is_literal ?k ?s then _ else _) = _ =>
             destruct (Webview.is_literal k s)
         | Js.bind ?c _ = _ => destruct c; cbn in H; try discriminate
         end;
    try discriminate; inversion H; subst; clear H;
    try match goal with |- Forall _ ((if truthy ?v then _ else _) ++ _) =>
      destruct (truthy v) eqn:T end;
    cbn [app]; repeat apply Forall_cons; try apply Forall_nil;
    cbn; auto.
  right. eauto.
Qed.

(** X16. Over any session, every message the listener posts to the source
    window is reveal-ready or a reveal-slide carrying a truthy slide: it
    never posts a slide that is undefined. *)
Theorem only_slides_and_ready_posted s messages :
  Forall Webview.posts_slide_or_ready (snd (Webview.listen other s messages)).
Proof.
  revert s. induction messages as [|data rest IH]; intros s; [ constructor | ].
  cbn [Webview.listen].
  destruct (Webview.on_message other s data) as [[s' calls]|e] eqn:O;
    [ | apply IH ].
  specialize (IH s'). destruct (Webview.listen other s' rest) as [final more].
  cbn [snd] in *. apply Forall_app. split; [ | exact IH ].
  now apply on_message_posts with s data s'.
Qed.

End Preview.

Lemma slideIndex_is_last_set_witness :
  Webview.kind (setSlideIndex_message (JsNumber 1))
  = Normal (JsString "setSlideIndex")
  /\ (forall a,
        In a [reveal_init_message two_slides; JsObject [("type", JsString "focus")]] ->
        Webview.kind a <> Normal (JsString "setSlideIndex"))
  /\ exists index,
       get (setSlideIndex_message (JsNumber 1)) "index" = Normal index
       /\ fst (Webview.listen no_other_read Webview.slideIndex_start
                 ([setSlideIndex_message (JsNumber 3)]
                    ++ setSlideIndex_message (JsNumber 1)
                    :: [reveal_init_message two_slides;
                        JsObject [("type", JsString "focus")]]))
          = Js.or index (JsNumber 0).
Proof.
  assert (A : forall a,
             In a [reveal_init_message two_slides;
                   JsObject [("type", JsString "focus")]] ->
             Webview.kind a <> Normal (JsString "setSlideIndex")).
  { intros a [<- | [<- | []]]; discriminate. }
  split; [ reflexivity | ]. split; [ exact A | ].
  exact (proj1
           (slideIndex_is_last_set no_other_read Webview.slideIndex_start
              [setSlideIndex_message (JsNumber 3)]
              (setSlideIndex_message (JsNumber 1))
              [reveal_init_message two_slides; JsObject [("type", JsString "focus")]]
              eq_refl A)).
Defined.

Lemma slide_at_index_is_posted_witness :
  Webview.kind (setSlideIndex_message (JsNumber 1))
  = Normal (JsString "setSlideIndex")
  /\ get (setSlideIndex_message (JsNumber 1)) "index" = Normal (JsNumber 1)
  /\ Webview.kind (reveal_init_message two_slides)
     = Normal (JsString "reveal-init")
  /\ get (reveal_init_message two_slides) "data"
     = Normal (JsObject [("slides", JsArray two_slides)])
  /\ get (JsObject [("slides", JsArray two_slides)]) "slides"
     = Normal (JsArray two_slides)
  /\ Webview.listen no_other_read Webview.slideIndex_start
       [setSlideIndex_message (JsNumber 1); reveal_init_message two_slides]
     = (JsNumber 1,
        [ Webview.reveal_slide (JsObject [("h", JsNumber 1); ("v", JsNumber 0)]);
          Webview.reveal_ready ]).
Proof.
  do 5 (split; [ reflexivity | ]).
  exact (slide_at_index_is_posted no_other_read Webview.slideIndex_start
           (setSlideIndex_message (JsNumber 1)) (reveal_init_message two_slides)
           1 (JsObject [("slides", JsArray two_slides)]) two_slides
           eq_refl eq_refl eq_refl eq_refl eq_refl).
Defined.
